(** * stock-analyst-filter: the fetch script and the dashboard, verified

    A shallow embedding of [fetch_data.py] (ticker scrapers, the
    de-duplicated ticker universe, the per-ticker retrieval loop) and of
    [app.py] (cached loading, the filter mask, the sort), followed by the
    properties of the specification.

    Conventions.  A Python number is the rational [Q] it denotes, and the
    result of a float operation is rounded to the nearest binary64 number
    ([fl]); the two zeros are one number, and the exponent range is taken
    unbounded above, so that no operation overflows to infinity.
    A pandas missing value (NaN) in a numeric or text column is [None];
    exceptions are values of [exn] carried by the [result] monad, and a
    [try: ... except Exception:] block is [try_except].  Tickers are
    strings, and writing to the console ([print]) and sleeping do not
    raise. *)

From Stdlib Require Import Ascii String QArith Qround Qabs Qpower Lqa.
From stdpp Require Import gmap strings list sorting.

Local Open Scope string_scope.
Local Open Scope list_scope.

(** ** Python values, exceptions *)

Inductive exn : Type :=
  | TypeError
  | ValueError
  | IndexError
  | KeyError
  | AttributeError
  | ZeroDivisionError
  | FileNotFoundError
  | ConnectionError
  | StreamlitInvalidMinMaxError
  | OtherError (msg : string).

Inductive result (A : Type) : Type :=
  | Ok (a : A)
  | Raise (e : exn).
Arguments Ok {A} a.
Arguments Raise {A} e.

Definition rbind {A B} (m : result A) (k : A -> result B) : result B :=
  match m with
  | Ok a => k a
  | Raise e => Raise e
  end.

Notation "x <-' m ; k" := (rbind m (fun x => k))
  (at level 100, m at next level, right associativity, only parsing).

(** [try: body  except Exception: return handler] *)
Definition try_except {A} (body : result A) (handler : exn -> A) : A :=
  match body with
  | Ok a => a
  | Raise e => handler e
  end.

(** The values found in the remote source's [info] dictionary. *)
Inductive value : Type :=
  | VNone
  | VNum (q : Q)
  | VStr (s : string).

(** Python truthiness: [None], [0] and the empty string are false. *)
Definition truthy (v : value) : bool :=
  match v with
  | VNone => false
  | VNum q => negb (Qeq_bool q 0)
  | VStr s => negb (String.eqb s "")
  end.

(** Rounding to the nearest integer, ties to the even one. *)
Definition round_half_even (x : Q) : Z :=
  let f := Qfloor x in
  let d := (x - inject_Z f)%Q in
  match Qcompare d (1 # 2) with
  | Lt => f
  | Gt => (f + 1)%Z
  | Eq => if Z.even f then f else (f + 1)%Z
  end.

(** The binade of a non-zero number: [floor (log2 |x|)]. *)
Definition binade (x : Q) : Z :=
  let e := (Z.log2 (Z.abs (Qnum x)) - Z.log2 (Z.pos (Qden x)))%Z in
  if Qle_bool (Qpower 2 e) (Qabs x) then e else (e - 1)%Z.

(** Rounding to binary64: the nearest number with a 53-bit significand
    (fewer bits below the normal range), ties to the even significand. *)
Definition fl (x : Q) : Q :=
  if Qeq_bool x 0 then 0%Q
  else
    let q := Z.max (binade x - 52) (-1074) in
    Qred (inject_Z (round_half_even (x * Qpower 2 (- q))) * Qpower 2 q).

(** [a - b], [a / b] and [a * b] in float arithmetic: defined on numbers,
    [TypeError] on [None] and on strings, [ZeroDivisionError] on a zero
    divisor. *)
Definition py_sub (a b : value) : result value :=
  match a, b with
  | VNum x, VNum y => Ok (VNum (fl (x - y)))
  | _, _ => Raise TypeError
  end.

Definition py_div (a b : value) : result value :=
  match a, b with
  | VNum x, VNum y =>
      if Qeq_bool y 0 then Raise ZeroDivisionError
      else Ok (VNum (fl (x / y)))
  | _, _ => Raise TypeError
  end.

Definition py_mul (a b : value) : result value :=
  match a, b with
  | VNum x, VNum y => Ok (VNum (fl (x * y)))
  | _, _ => Raise TypeError
  end.

(** [round(x, 2)] on a float: the decimal with two places nearest to the
    exact value of [x] (ties to the even last digit), converted back to
    the nearest float. *)
Definition round2 (x : Q) : Q := fl (round_half_even (x * 100) # 100).

(** [round(v, 2)] on a value. *)
Definition py_round2 (v : value) : result Q :=
  match v with
  | VNum x => Ok (round2 x)
  | _ => Raise TypeError
  end.

(** [int(x)] on a cell of a numeric pandas column: truncation towards zero,
    [ValueError] on NaN. *)
Definition py_int (c : option Q) : result Z :=
  match c with
  | Some q => Ok (Z.quot (Qnum q) (Z.pos (Qden q)))
  | None => Raise ValueError
  end.

(** ** Strings *)

(** [s.endswith(suffix)] *)
Definition endswith (s suffix : string) : bool :=
  let n := String.length s in
  let k := String.length suffix in
  (k <=? n)%nat && String.eqb (String.substring (n - k) k s) suffix.

(** [s.replace(old, new)] for a non-empty [old]: non-overlapping
    occurrences, scanned from the left.  [skip] counts the characters of a
    matched occurrence still to be dropped. *)
Fixpoint replace_from (old new : string) (skip : nat) (s : string) : string :=
  match s with
  | EmptyString => EmptyString
  | String c rest =>
      match skip with
      | S k => replace_from old new k rest
      | O =>
          if String.prefix old s
          then new +:+ replace_from old new (String.length old - 1) rest
          else String c (replace_from old new 0 rest)
      end
  end.

Definition str_replace (s old new : string) : string :=
  replace_from old new 0 s.

(** White space as [str.strip()] sees it, on the UTF-8 bytes of a text:
    the one-byte characters U+0009-000D, U+001C-001F and U+0020, the
    two-byte U+0085 and U+00A0 and the three-byte U+1680, U+2000-200A,
    U+2028, U+2029, U+202F, U+205F and U+3000. *)
Definition is_space (c : ascii) : bool :=
  let n := nat_of_ascii c in
  (n =? 32)%nat || ((9 <=? n)%nat && (n <=? 13)%nat)
  || ((28 <=? n)%nat && (n <=? 31)%nat).

Definition is_space2 (c1 c2 : ascii) : bool :=
  let n1 := nat_of_ascii c1 in
  let n2 := nat_of_ascii c2 in
  (n1 =? 194)%nat && ((n2 =? 133)%nat || (n2 =? 160)%nat).

Definition is_space3 (c1 c2 c3 : ascii) : bool :=
  let n1 := nat_of_ascii c1 in
  let n2 := nat_of_ascii c2 in
  let n3 := nat_of_ascii c3 in
  ((n1 =? 225)%nat && (n2 =? 154)%nat && (n3 =? 128)%nat)
  || ((n1 =? 226)%nat && (n2 =? 128)%nat
      && (((128 <=? n3)%nat && (n3 <=? 138)%nat)
          || (n3 =? 168)%nat || (n3 =? 169)%nat || (n3 =? 175)%nat))
  || ((n1 =? 226)%nat && (n2 =? 129)%nat && (n3 =? 159)%nat)
  || ((n1 =? 227)%nat && (n2 =? 128)%nat && (n3 =? 128)%nat).

(** Dropping the leading white space; [backwards] reads the bytes of each
    character last byte first, for a text that was reversed. *)
Fixpoint lstrip_bytes (backwards : bool) (s : string) : string :=
  match s with
  | EmptyString => s
  | String c1 r1 =>
      if is_space c1 then lstrip_bytes backwards r1
      else
        match r1 with
        | EmptyString => s
        | String c2 r2 =>
            if (if backwards then is_space2 c2 c1 else is_space2 c1 c2)
            then lstrip_bytes backwards r2
            else
              match r2 with
              | EmptyString => s
              | String c3 r3 =>
                  if (if backwards then is_space3 c3 c2 c1
                      else is_space3 c1 c2 c3)
                  then lstrip_bytes backwards r3
                  else s
              end
        end
  end.

Definition lstrip (s : string) : string := lstrip_bytes false s.

Definition rstrip (s : string) : string :=
  String.rev (lstrip_bytes true (String.rev s)).

(** [s.strip()] *)
Definition strip (s : string) : string := rstrip (lstrip s).

(** ** fetch_data.py *)

Module FetchData.

(** *** Scraped pages

    A table of [pd.read_html] keeps its columns in order, each with its
    cells; a cell of a ticker column is a text or a missing value (NaN). *)
Definition cell : Type := option string.
Definition table : Type := list (string * list cell).

(** [name in df.columns] *)
Definition has_column (df : table) (name : string) : bool :=
  existsb (fun c => String.eqb (fst c) name) df.

(** [df[name].tolist()] *)
Definition column (df : table) (name : string) : result (list cell) :=
  match List.find (fun c => String.eqb (fst c) name) df with
  | Some c => Ok (snd c)
  | None => Raise KeyError
  end.

(** [l[i]] *)
Definition py_index {A} (l : list A) (i : nat) : result A :=
  match l !! i with
  | Some x => Ok x
  | None => Raise IndexError
  end.

(** [t.replace(old, new)] on a cell: a float (NaN) has no such method. *)
Definition cell_replace (t : cell) (old new : string) : result string :=
  match t with
  | Some s => Ok (str_replace s old new)
  | None => Raise AttributeError
  end.

(** [str(ticker)] *)
Definition cell_str (t : cell) : string :=
  match t with
  | Some s => s
  | None => "nan"
  end.

(** A list comprehension whose element expression may raise. *)
Fixpoint comprehension {A B} (f : A -> result B) (l : list A)
  : result (list B) :=
  match l with
  | [] => Ok []
  | x :: rest =>
      y <-' f x;
      ys <-' comprehension f rest;
      Ok (y :: ys)
  end.

Definition sp500_url : string :=
  "https://en.wikipedia.org/wiki/List_of_S%26P_500_companies".
Definition nasdaq100_url : string :=
  "https://en.wikipedia.org/wiki/Nasdaq-100".
Definition russell1000_url : string :=
  "https://en.wikipedia.org/wiki/Russell_1000_Index".
Definition tsx_url : string :=
  "https://en.wikipedia.org/wiki/S%26P/TSX_Composite_Index".

Definition possible_names : list string :=
  ["Ticker"; "Symbol"; "Ticker symbol"].

(** The guard of [get_tsx_composite_tickers]: [len(tables) < 3]. *)
Definition tsx_guard (tables : list table) : bool :=
  (length tables <? 3)%nat.

(** The body of the cleaning loop of [get_tsx_composite_tickers]. *)
Definition clean_ticker (ticker : cell) : string :=
  let t := strip (cell_str ticker) in
  let t := str_replace t "." "-" in
  if negb (endswith t ".TO") then t +:+ ".TO" else t.

Definition get_custom_tickers : list string :=
  ["GME"; "AMC"; "PLTR"; "HOOD"; "COIN"; "RIVN"; "SOFI";
   "ARKK"; "SPY"; "QQQ"; "IWM"; "APLD"; "MARA"; "CIFR"; "IREN"; "AEVA";
   "INOD"; "NBIS"].

(** [list(set(l))]: the order of a Python set is unspecified, the model
    lists the set in the canonical order of [gset].  What holds of the
    program is what does not depend on that order: membership, the absence
    of duplicates, the length. *)
Definition dedup (l : list string) : list string :=
  elements (list_to_set l : gset string).

(** The four scraped index pages. *)
Inductive source : Type := SP500 | Nasdaq100 | Russell1000 | TSXComposite.

Definition source_url (s : source) : string :=
  match s with
  | SP500 => sp500_url
  | Nasdaq100 => nasdaq100_url
  | Russell1000 => russell1000_url
  | TSXComposite => tsx_url
  end.

(** No column of the table carries one of the ticker headings. *)
Definition no_ticker_column (df : table) : Prop :=
  ∀ name, name ∈ possible_names → has_column df name = false.

Section Scrapers.

(** [requests.get(url, headers=...).text] and [pd.read_html]: the web and
    the HTML parser are the environment; either may raise. *)
Variable requests_get : string -> result string.
Variable read_html : string -> result (list table).

Definition sp500_body : result (list string) :=
  response <-' requests_get sp500_url;
  tables <-' read_html response;
  df <-' py_index tables 0;
  symbols <-' column df "Symbol";
  comprehension (fun t => cell_replace t "." "-") symbols.

Definition get_sp500_tickers : list string :=
  try_except sp500_body (fun _ => []).

Definition nasdaq100_body : result (list string) :=
  response <-' requests_get nasdaq100_url;
  tables <-' read_html response;
  match List.find (fun df => has_column df "Ticker" || has_column df "Symbol")
          tables with
  | None => Ok []
  | Some target_df =>
      let col := if has_column target_df "Ticker" then "Ticker"
                 else "Symbol" in
      cells <-' column target_df col;
      comprehension (fun t => cell_replace t "." "-") cells
  end.

Definition get_nasdaq100_tickers : list string :=
  try_except nasdaq100_body (fun _ => []).

Definition russell1000_body : result (list string) :=
  response <-' requests_get russell1000_url;
  tables <-' read_html response;
  match List.find (fun df => has_column df "Symbol" || has_column df "Ticker")
          tables with
  | None => Ok []
  | Some target_df =>
      let col := if has_column target_df "Symbol" then "Symbol"
                 else "Ticker" in
      cells <-' column target_df col;
      comprehension (fun t => cell_replace t "." "-") cells
  end.

Definition get_russell1000_tickers : list string :=
  try_except russell1000_body (fun _ => []).

Definition tsx_body : result (list string) :=
  response <-' requests_get tsx_url;
  tables <-' read_html response;
  if tsx_guard tables then Ok []
  else
    df <-' py_index tables 3;
    match List.find (fun name => has_column df name) possible_names with
    | None => Ok []
    | Some col_name =>
        if String.eqb col_name "" then Ok []
        else
          cells <-' column df col_name;
          Ok (map clean_ticker cells)
    end.

Definition get_tsx_composite_tickers : list string :=
  try_except tsx_body (fun _ => []).

Definition scraper (s : source) : list string :=
  match s with
  | SP500 => get_sp500_tickers
  | Nasdaq100 => get_nasdaq100_tickers
  | Russell1000 => get_russell1000_tickers
  | TSXComposite => get_tsx_composite_tickers
  end.

(** The ways a source can let its scraper down: the page cannot be
    fetched, it cannot be parsed, or none of its tables has a ticker
    column. *)
Definition page_unavailable (s : source) : Prop :=
  ∃ e, requests_get (source_url s) = Raise e.

Definition parse_fails (s : source) : Prop :=
  ∃ html e, requests_get (source_url s) = Ok html ∧ read_html html = Raise e.

Definition no_ticker_table (s : source) : Prop :=
  ∃ html tables,
    requests_get (source_url s) = Ok html ∧ read_html html = Ok tables
    ∧ Forall no_ticker_column tables.

(** The ticker universe of the [__main__] block. *)
Definition master_list : list string :=
  let sp500 := get_sp500_tickers in
  let nasdaq := get_nasdaq100_tickers in
  let russell := get_russell1000_tickers in
  let tsx := get_tsx_composite_tickers in
  let custom := get_custom_tickers in
  dedup (sp500 ++ nasdaq ++ russell ++ tsx ++ custom).

End Scrapers.

(** *** The per-ticker retrieval loop *)

(** One row of [data_list].  [Price] and [Target_Price] are the objects
    read from [info]; the text and ratio fields are whatever [info.get]
    returned. *)
Record Row : Type := {
  Ticker : string;
  Price : value;
  Currency : value;
  Target_Price : value;
  Upside_Potential : Q;
  Num_Analysts : value;
  Strong_Buy : Z;
  Buy : Z;
  Hold : Z;
  Sell : Z;
  Strong_Sell : Z;
  Rating : value;
  Sector : value;
  Trailing_PE : value;
  Forward_PE : value;
  Dividend_Yield : value
}.

(** What [yf.Ticker(symbol)] gives access to: the [info] dictionary and
    the [recommendations] frame (or [None]); reading either property goes
    to the network and may raise.  A row of the frame maps a column to a
    number or to NaN. *)
Record Stock : Type := {
  info : result (gmap string value);
  recommendations : result (option (list (gmap string (option Q))))
}.

(** [d.get(key)] and [d.get(key, default)] *)
Definition dict_get (d : gmap string value) (key : string) : value :=
  default VNone (d !! key).

Definition dict_get_default (d : gmap string value) (key : string)
    (dflt : value) : value :=
  default dflt (d !! key).

(** [latest.get(key, 0)] on the first row of the recommendation frame. *)
Definition series_get (latest : gmap string (option Q)) (key : string)
  : option Q :=
  default (Some 0%Q) (latest !! key).

(** The float value of [((target_mean - current_price) / current_price)
    * 100] on two numbers. *)
Definition percentage (current_price target_mean : Q) : Q :=
  fl (fl (fl (target_mean - current_price) / current_price) * 100).

(** [((target_mean - current_price) / current_price) * 100] *)
Definition upside_of (target_mean current_price : value) : result value :=
  d <-' py_sub target_mean current_price;
  r <-' py_div d current_price;
  py_mul r (VNum 100).

Record Counts : Type := {
  strong_buy : option Q;
  buy : option Q;
  hold : option Q;
  sell : option Q;
  strong_sell : option Q
}.

Definition zero_counts : Counts :=
  {| strong_buy := Some 0%Q; buy := Some 0%Q; hold := Some 0%Q;
     sell := Some 0%Q; strong_sell := Some 0%Q |}.

(** The inner [try: recs = stock.recommendations ... except Exception: pass]:
    the five counts keep their initial 0 unless a non-empty frame is read. *)
Definition analyst_counts (stock : Stock) : Counts :=
  try_except
    (recs <-' recommendations stock;
     match recs with
     | Some (latest :: _) =>
         Ok {| strong_buy := series_get latest "strongBuy";
               buy := series_get latest "buy";
               hold := series_get latest "hold";
               sell := series_get latest "sell";
               strong_sell := series_get latest "strongSell" |}
     | _ => Ok zero_counts
     end)
    (fun _ => zero_counts).

(** None of the five counts is NaN, so that [int(...)] accepts them. *)
Definition counts_are_numbers (c : Counts) : Prop :=
  is_Some (strong_buy c) ∧ is_Some (buy c) ∧ is_Some (hold c)
  ∧ is_Some (sell c) ∧ is_Some (strong_sell c).

(** The body of the outer [try] for one symbol: [Ok (Some row)] when a row
    is appended, [Ok None] on the [else: pass] branch, [Raise e] when an
    exception escapes to the [except Exception: pass]. *)
Definition attempt_body (stock : Stock) (current_ticker : string)
  : result (option Row) :=
  info <-' info stock;
  let current_price := dict_get info "currentPrice" in
  let target_mean := dict_get info "targetMeanPrice" in
  let div_yield := dict_get_default info "dividendYield" (VNum 0) in
  let div_yield := match div_yield with VNone => VNum 0 | v => v end in
  _ <-' (if truthy current_price && truthy target_mean
         then upside_of target_mean current_price
         else Ok VNone);
  if truthy current_price && truthy target_mean then
    upside <-' upside_of target_mean current_price;
    let c := analyst_counts stock in
    rounded <-' py_round2 upside;
    sb <-' py_int (strong_buy c);
    b <-' py_int (buy c);
    h <-' py_int (hold c);
    s <-' py_int (sell c);
    ss <-' py_int (strong_sell c);
    Ok (Some {| Ticker := current_ticker;
                Price := current_price;
                Currency := dict_get_default info "currency" (VStr "USD");
                Target_Price := target_mean;
                Upside_Potential := rounded;
                Num_Analysts :=
                  dict_get_default info "numberOfAnalystOpinions" (VNum 0);
                Strong_Buy := sb;
                Buy := b;
                Hold := h;
                Sell := s;
                Strong_Sell := ss;
                Rating := dict_get_default info "recommendationKey" (VStr "N/A");
                Sector := dict_get_default info "sector" (VStr "Unknown");
                Trailing_PE := dict_get info "trailingPE";
                Forward_PE := dict_get info "forwardPE";
                Dividend_Yield := div_yield |})
  else Ok None.

(** A line printed by [fetch_analyst_data]. *)
Inductive line : Type :=
  | Starting (total : nat)
  | Succeeded (i total : nat) (current_ticker : string)
  | Failed (i total : nat) (ticker : string).

(** The variables the loop updates, and the symbols requested so far. *)
Record state : Type := {
  data_list : list Row;
  requests : list string;
  stdout : list line
}.

(** [ticker.replace('.TO', '.NE')] *)
Definition alternate (ticker : string) : string :=
  str_replace ticker ".TO" ".NE".

(** The symbols of the success lines of a console output. *)
Definition succeeded_symbols (out : list line) : list string :=
  omap (fun ln => match ln with
                  | Succeeded _ _ current_ticker => Some current_ticker
                  | _ => None
                  end) out.

(** [attempts = [ticker]], plus the alternate when it ends with [.TO]. *)
Definition attempts_of (ticker : string) : list string :=
  [ticker] ++ (if endswith ticker ".TO" then [alternate ticker] else []).

(** The alternate symbol as the specification words it: the ticker with
    its three-character suffix replaced by [.NE]. *)
Definition suffix_replaced (ticker : string) : string :=
  String.substring 0 (String.length ticker - 3) ticker +:+ ".NE".

(** The string contains a dot. *)
Fixpoint has_dot (s : string) : bool :=
  match s with
  | EmptyString => false
  | String c rest => Ascii.eqb c "." || has_dot rest
  end.

(** The shape of the tickers the aggregator builds: no dot at all, or a
    dot-free symbol followed by [.TO]. *)
Definition aggregator_shaped (t : string) : Prop :=
  has_dot t = false ∨ ∃ base, has_dot base = false ∧ t = base +:+ ".TO".

(** The [i/total] counter a report line starts with. *)
Definition line_number (ln : line) : option (nat * nat) :=
  match ln with
  | Starting _ => None
  | Succeeded i total _ => Some (i, total)
  | Failed i total _ => Some (i, total)
  end.

(** [int(latest.get(key, 0))] as it ends up in a row: the truncated cell of
    the first recommendation row, 0 when the frame has no such column. *)
Definition int_count (latest : gmap string (option Q)) (key : string) : Z :=
  match latest !! key with
  | Some (Some q) => Z.quot (Qnum q) (Z.pos (Qden q))
  | _ => 0
  end.

(** The console line is the report on [ticker]: a success under one of
    its symbols, or its failure. *)
Definition line_about (ticker : string) (ln : line) : Prop :=
  match ln with
  | Starting _ => False
  | Succeeded _ _ current_ticker => current_ticker ∈ attempts_of ticker
  | Failed _ _ t => t = ticker
  end.

(** The five count columns read from the recommendation frame. *)
Definition count_columns : list string :=
  ["strongBuy"; "buy"; "hold"; "sell"; "strongSell"].

(** The recommendation data do not stand in the way of a row: reading the
    frame raises, or there is no frame or an empty one, or the first row
    has no NaN in a count column. *)
Definition usable_counts (stock : Stock) : Prop :=
  match recommendations stock with
  | Ok (Some (latest :: _)) =>
      Forall (λ key, latest !! key ≠ Some None) count_columns
  | _ => True
  end.

(** The remote source answers for a symbol: its [info] can be read and
    holds a current price and a mean target price that are numbers other
    than 0, and the recommendation data are usable. *)
Definition answers (stock : Stock) : Prop :=
  ∃ (d : gmap string value) (c t : Q),
    info stock = Ok d
    ∧ d !! "currentPrice" = Some (VNum c)
    ∧ d !! "targetMeanPrice" = Some (VNum t)
    ∧ ¬ (c == 0)%Q ∧ ¬ (t == 0)%Q
    ∧ usable_counts stock.

(** The row is the one written for [symbol] from what the source gave:
    it carries the symbol and the two prices of [info]. *)
Definition row_from (stock : Stock) (symbol : string) (r : Row) : Prop :=
  ∃ (d : gmap string value) (c t : Q),
    info stock = Ok d
    ∧ d !! "currentPrice" = Some (VNum c)
    ∧ d !! "targetMeanPrice" = Some (VNum t)
    ∧ Ticker r = symbol ∧ Price r = VNum c ∧ Target_Price r = VNum t.

Section Fetch.

(** The remote data source.  Its answer may depend on the symbols already
    requested, so that an unreliable network is covered. *)
Variable yf_Ticker : list string -> string -> Stock.

(** One pass of [try: ... except Exception: pass] for a symbol. *)
Definition try_attempt (log : list string) (current_ticker : string)
  : option Row :=
  try_except (attempt_body (yf_Ticker log current_ticker) current_ticker)
             (fun _ => None).

(** [for current_ticker in attempts: if success: break ...] *)
Fixpoint attempt_loop (total i : nat) (attempts : list string)
    (success : bool) (st : state) : bool * state :=
  match attempts with
  | [] => (success, st)
  | current_ticker :: rest =>
      if success then (success, st)
      else
        let asked := requests st ++ [current_ticker] in
        match try_attempt (requests st) current_ticker with
        | Some row =>
            attempt_loop total i rest true
              {| data_list := data_list st ++ [row];
                 requests := asked;
                 stdout := stdout st
                           ++ [Succeeded (i + 1) total current_ticker] |}
        | None =>
            attempt_loop total i rest false
              {| data_list := data_list st;
                 requests := asked;
                 stdout := stdout st |}
        end
  end.

(** The body of [for i, ticker in enumerate(tickers)]. *)
Definition process_ticker (total i : nat) (ticker : string) (st : state)
  : state :=
  let '(success, st') := attempt_loop total i (attempts_of ticker) false st in
  if negb success
  then {| data_list := data_list st';
          requests := requests st';
          stdout := stdout st' ++ [Failed (i + 1) total ticker] |}
  else st'.

Fixpoint ticker_loop (total i : nat) (tickers : list string) (st : state)
  : state :=
  match tickers with
  | [] => st
  | ticker :: rest =>
      ticker_loop total (S i) rest (process_ticker total i ticker st)
  end.

(** [data_list = []] and the first [print]. *)
Definition initial_state (total : nat) : state :=
  {| data_list := []; requests := []; stdout := [Starting total] |}.

(** [fetch_analyst_data(tickers)]: the returned frame is [data_list]. *)
Definition fetch_analyst_data (tickers : list string) : state :=
  let total := length tickers in
  ticker_loop total 0 tickers (initial_state total).

(** Attempt number [k] of [ticker], made after the symbols of [log] and
    the earlier attempts of the ticker were requested. *)
Definition nth_attempt (log : list string) (ticker : string) (k : nat)
  : option Row :=
  match attempts_of ticker !! k with
  | Some current_ticker =>
      try_attempt (log ++ take k (attempts_of ticker)) current_ticker
  | None => None
  end.

(** Some attempt for [ticker] succeeds, [r] being the row of the first
    one that does. *)
Definition first_success (log : list string) (ticker : string) (r : Row)
  : Prop :=
  ∃ k, nth_attempt log ticker k = Some r
       ∧ ∀ j, (j < k)%nat → nth_attempt log ticker j = None.

Definition all_attempts_fail (log : list string) (ticker : string) : Prop :=
  ∀ k, nth_attempt log ticker k = None.

(** The row was appended by an attempt of the run that requested [reqs]. *)
Definition made_by_attempt (reqs : list string) (r : Row) : Prop :=
  ∃ log, (log ++ [Ticker r]) `prefix_of` reqs
         ∧ try_attempt log (Ticker r) = Some r.

(** The symbols requested for one ticker. *)
Definition asked (log : list string) (ticker : string) : list string :=
  if endswith ticker ".TO" && bool_decide (try_attempt log ticker = None)
  then [ticker; alternate ticker]
  else [ticker].

End Fetch.

End FetchData.

(** ** app.py *)

Module App.

(** One row of the frame read back from [stock_data.csv]: numeric columns
    hold a number or NaN, text columns a text or NaN. *)
Record CsvRow : Type := {
  Ticker : option string;
  Price : option Q;
  Currency : option string;
  Target_Price : option Q;
  Upside_Potential : option Q;
  Num_Analysts : option Q;
  Strong_Buy : option Q;
  Buy : option Q;
  Hold : option Q;
  Sell : option Q;
  Strong_Sell : option Q;
  Rating : option string;
  Sector : option string;
  Trailing_PE : option Q;
  Forward_PE : option Q;
  Dividend_Yield : option Q
}.

Definition DataFrame : Type := list CsvRow.

(** *** Loading *)

(** The file [stock_data.csv]: absent, or present with what [pd.read_csv]
    makes of it (a frame, or an exception such as a parse error). *)
Definition file_state : Type := option (result DataFrame).

Definition read_csv (file : file_state) : result DataFrame :=
  match file with
  | None => Raise FileNotFoundError
  | Some r => r
  end.

(** The body of [load_data]: [except FileNotFoundError: return None]. *)
Definition load_data (file : file_state) : result (option DataFrame) :=
  match read_csv file with
  | Ok df => Ok (Some df)
  | Raise FileNotFoundError => Ok None
  | Raise e => Raise e
  end.

(** [@st.cache_data(ttl="2h")]: the value returned by an earlier call is
    kept and returned without running the body; an entry that has expired
    or was cleared is absent. *)
Definition cache_state : Type := option (option DataFrame).

Definition load_data_cached (cache : cache_state) (file : file_state)
  : result (option DataFrame) * cache_state :=
  match cache with
  | Some v => (Ok v, cache)
  | None =>
      match load_data file with
      | Ok v => (Ok v, Some v)
      | Raise e => (Raise e, None)
      end
  end.

(** *** Filters *)

(** The choices of [st.radio("Sort By:", ...)]. *)
Inductive sort_option : Type :=
  | by_Upside_Potential
  | by_Num_Analysts
  | by_Forward_PE
  | by_Trailing_PE.

Definition option_name (o : sort_option) : string :=
  match o with
  | by_Upside_Potential => "Upside_Potential"
  | by_Num_Analysts => "Num_Analysts"
  | by_Forward_PE => "Forward_PE"
  | by_Trailing_PE => "Trailing_PE"
  end.

(** [df[name]] for the columns offered by the radio. *)
Definition option_column (o : sort_option) : CsvRow -> option Q :=
  match o with
  | by_Upside_Potential => Upside_Potential
  | by_Num_Analysts => Num_Analysts
  | by_Forward_PE => Forward_PE
  | by_Trailing_PE => Trailing_PE
  end.

(** The values of the sidebar widgets and of the radio. *)
Record Controls : Type := {
  selected_sectors : list string;
  min_analysts : Z;
  min_upside : Q;
  min_div : Q;
  rating_filter : list (option string);
  sort_col : sort_option
}.

(** [column >= floor]: a comparison with NaN is false. *)
Definition ge_floor (v : option Q) (floor : Q) : bool :=
  match v with
  | Some x => Qle_bool floor x
  | None => false
  end.

(** [df['Rating'].isin(rating_filter)]: NaN matches a NaN of the list. *)
Definition isin (v : option string) (values : list (option string)) : bool :=
  bool_decide (v ∈ values).

Definition mask (c : Controls) (r : CsvRow) : bool :=
  ge_floor (Num_Analysts r) (inject_Z (min_analysts c))
  && ge_floor (Upside_Potential r) (min_upside c)
  && ge_floor (Dividend_Yield r) (min_div c)
  && isin (Rating r) (rating_filter c)
  && isin (Sector r) (Some <$> selected_sectors c).

Definition filtered_df (c : Controls) (df : DataFrame) : DataFrame :=
  List.filter (mask c) df.

(** *** Sorting *)

(** [ascending=(sort_col in ["Forward_PE", "Trailing_PE"])] *)
Definition ascending (o : sort_option) : bool :=
  bool_decide (option_name o ∈ ["Forward_PE"; "Trailing_PE"]).

(** The order [sort_values] puts two keys in: by value in the direction
    asked for, NaN after every number ([na_position='last']). *)
Definition key_leb (asc : bool) (a b : option Q) : bool :=
  match a, b with
  | Some x, Some y => if asc then Qle_bool x y else Qle_bool y x
  | _, None => true
  | None, Some _ => false
  end.

Definition row_before (key : CsvRow -> option Q) (asc : bool)
  : relation CsvRow :=
  fun r1 r2 => key_leb asc (key r1) (key r2) = true.

#[global] Instance row_before_dec key asc : RelDecision (row_before key asc).
Proof. intros r1 r2. unfold row_before. apply _. Defined.

(** [df.sort_values(by=..., ascending=...)], as a merge sort.  The order
    pandas gives to rows with equal keys is not modelled: what holds of
    the program is that the result is a rearrangement of the frame in the
    order of the keys. *)
Definition sort_values (df : DataFrame) (key : CsvRow -> option Q)
    (asc : bool) : DataFrame :=
  merge_sort (row_before key asc) df.

Definition sorted_df (c : Controls) (df : DataFrame) : DataFrame :=
  sort_values (filtered_df c df) (option_column (sort_col c))
              (ascending (sort_col c)).

(** Two rows in non-increasing, respectively non-decreasing, order of a
    column, rows without a value coming after those with one. *)
Definition descending_by (key : CsvRow -> option Q) : relation CsvRow :=
  fun r1 r2 =>
    match key r1, key r2 with
    | Some x, Some y => (y <= x)%Q
    | _, None => True
    | None, Some _ => False
    end.

Definition ascending_by (key : CsvRow -> option Q) : relation CsvRow :=
  fun r1 r2 =>
    match key r1, key r2 with
    | Some x, Some y => (x <= y)%Q
    | _, None => True
    | None, Some _ => False
    end.

(** *** Widget defaults *)

(** [series.unique()]: the values in order of first appearance. *)
Fixpoint unique_from {A} `{EqDecision A} (seen l : list A) : list A :=
  match l with
  | [] => []
  | x :: rest =>
      if bool_decide (x ∈ seen) then unique_from seen rest
      else x :: unique_from (x :: seen) rest
  end.

Definition unique {A} `{EqDecision A} (l : list A) : list A :=
  unique_from [] l.

(** The order of [sorted] on texts. *)
Definition str_le : relation string :=
  fun a b => String.leb a b = true.

#[global] Instance str_le_dec : RelDecision str_le.
Proof. intros a b. unfold str_le. apply _. Defined.

(** [sorted(df['Sector'].dropna().unique())] *)
Definition available_sectors (df : DataFrame) : list string :=
  merge_sort str_le (unique (omap Sector df)).

(** The values the widgets have before the user touches them: every
    sector and every rating selected, the three floors at 0, the first
    radio choice. *)
Definition default_controls (df : DataFrame) : Controls :=
  {| selected_sectors := available_sectors df;
     min_analysts := 0;
     min_upside := 0;
     min_div := 0;
     rating_filter := unique (map Rating df);
     sort_col := by_Upside_Potential |}.

(** *** The script *)

(** [df['Num_Analysts'].max()]: NaN cells are skipped, the result is NaN
    when no number is left. *)
Definition column_max (cells : list (option Q)) : option Q :=
  fold_left
    (fun acc cell =>
       match acc, cell with
       | Some m, Some x => Some (if Qle_bool m x then x else m)
       | None, _ => cell
       | _, None => acc
       end)
    cells None.

(** The message of [st.error]. *)
Definition not_found_message : string :=
  "Data file not found. Please run 'fetch_data.py' first!".

(** [st.sidebar.slider(..., min_value, max_value, value=0)]: the framework
    refuses a maximum that is not above the minimum. *)
Definition slider (min_value max_value : Z) : result unit :=
  if (min_value <? max_value)%Z then Ok tt
  else Raise StreamlitInvalidMinMaxError.

(** The analyst-count slider of the side bar:
    [max_value=int(df['Num_Analysts'].max())]. *)
Definition analysts_slider (df : DataFrame) : result unit :=
  max_value <-' py_int (column_max (map Num_Analysts df));
  slider 0 max_value.

(** How a run of the script ends. *)
Inductive outcome : Type :=
  | ErrorAndStop (msg : string)
  | Displayed (stocks_found : nat) (shown : DataFrame)
  | Uncaught (e : exn).

(** One run of the script.  Pressing the refresh button clears the cache
    and reruns the script with the button released.  The values of the
    widgets are those of [c]. *)
Definition run (refresh : bool) (cache : cache_state) (file : file_state)
    (c : Controls) : outcome * cache_state :=
  let cache := if refresh then None else cache in
  match load_data_cached cache file with
  | (Raise e, cache) => (Uncaught e, cache)
  | (Ok None, cache) => (ErrorAndStop not_found_message, cache)
  | (Ok (Some df), cache) =>
      match analysts_slider df with
      | Raise e => (Uncaught e, cache)
      | Ok _ =>
          let shown := sorted_df c df in
          (Displayed (length shown) shown, cache)
      end
  end.

End App.

(** * Sample inputs *)

Module Samples.
Import FetchData.

(** A web that cannot be reached, and one whose pages hold no table. *)
Definition offline_web : string -> result string :=
  fun _ => Raise ConnectionError.

Definition plain_web : string -> result string :=
  fun _ => Ok "<html></html>".

Definition no_tables : string -> result (list table) :=
  fun _ => Raise ValueError.

(** A page whose first table lists two symbols, one with a share class. *)
Definition listing : list table :=
  [ [("Symbol", [Some "BRK.B"; Some "AAPL"]);
     ("Ticker", [Some "BRKB"; Some "AAPL"])];
    [("Year", [Some "2020"])];
    [("Index", [None])];
    [("Ticker", [Some " RY "; Some "TECK.B"; None])] ].

Definition read_listing : string -> result (list table) :=
  fun _ => Ok listing.

(** A page whose constituents table comes second and has a [Symbol] column
    only. *)
Definition constituents : list table :=
  [ [("Year", [Some "2020"])];
    [("Company", [Some "Brown-Forman"; Some "Microsoft"]);
     ("Symbol", [Some "BF.B"; Some "MSFT"])] ].

Definition read_constituents : string -> result (list table) :=
  fun _ => Ok constituents.

(** A parser that finds three tables without tickers on every page. *)
Definition three_tables : list table :=
  [ [("Year", [Some "2020"])]; [("Index", [Some "TSX"])]; [("Notes", [])] ].

Definition read_three : string -> result (list table) :=
  fun _ => Ok three_tables.

(** What the source holds for a stock quoted at 80 with a mean target of
    100, without dividend and with a null sector. *)
Definition quote : gmap string value :=
  {[ "currentPrice" := VNum 80;
     "targetMeanPrice" := VNum 100;
     "dividendYield" := VNone;
     "sector" := VNone;
     "forwardPE" := VNum (25 # 2) ]}.

(** A remote source that knows the stock under its [.NE] symbol only. *)
Definition listed_on_neo : list string -> string -> Stock :=
  fun _ symbol =>
    if String.eqb symbol "RY.NE"
    then {| info := Ok quote; recommendations := Ok None |}
    else {| info := Raise ConnectionError;
            recommendations := Raise ConnectionError |}.

(** The row that stock gets. *)
Definition neo_row : Row :=
  {| Ticker := "RY.NE";
     Price := VNum 80;
     Currency := VStr "USD";
     Target_Price := VNum 100;
     Upside_Potential := 25;
     Num_Analysts := VNum 0;
     Strong_Buy := 0;
     Buy := 0;
     Hold := 0;
     Sell := 0;
     Strong_Sell := 0;
     Rating := VStr "N/A";
     Sector := VNone;
     Trailing_PE := VNone;
     Forward_PE := VNum (25 # 2);
     Dividend_Yield := VNum 0 |}.

(** A remote source that knows every stock and has a recommendation frame
    without the two sell columns. *)
Definition followed : list string -> string -> Stock :=
  fun _ _ =>
    {| info := Ok quote;
       recommendations :=
         Ok (Some [ {[ "strongBuy" := Some 4%Q;
                       "buy" := Some (21 # 2)%Q;
                       "hold" := Some 6%Q ]};
                    {[ "strongBuy" := Some 1%Q ]} ]) |}.

(** The row a stock gets from it. *)
Definition followed_row (ticker : string) : Row :=
  {| Ticker := ticker;
     Price := VNum 80;
     Currency := VStr "USD";
     Target_Price := VNum 100;
     Upside_Potential := 25;
     Num_Analysts := VNum 0;
     Strong_Buy := 4;
     Buy := 10;
     Hold := 6;
     Sell := 0;
     Strong_Sell := 0;
     Rating := VStr "N/A";
     Sector := VNone;
     Trailing_PE := VNone;
     Forward_PE := VNum (25 # 2);
     Dividend_Yield := VNum 0 |}.

(** A remote source for a stock quoted at 160 with a mean target of 183. *)
Definition odd_price : list string -> string -> Stock :=
  fun _ _ =>
    {| info := Ok {[ "currentPrice" := VNum 160;
                     "targetMeanPrice" := VNum 183 ]};
       recommendations := Ok None |}.

(** A remote source that fails on every request. *)
Definition unreachable : list string -> string -> Stock :=
  fun _ _ => {| info := Raise ConnectionError;
                recommendations := Raise ConnectionError |}.

(** A one-row table and widget values that let the row through. *)
Definition bank : App.CsvRow :=
  {| App.Ticker := Some "RY.NE";
     App.Price := Some 80%Q;
     App.Currency := Some "CAD";
     App.Target_Price := Some 100%Q;
     App.Upside_Potential := Some 25%Q;
     App.Num_Analysts := Some 12%Q;
     App.Strong_Buy := Some 3%Q;
     App.Buy := Some 6%Q;
     App.Hold := Some 3%Q;
     App.Sell := Some 0%Q;
     App.Strong_Sell := Some 0%Q;
     App.Rating := Some "buy";
     App.Sector := Some "Financial Services";
     App.Trailing_PE := Some (27 # 2)%Q;
     App.Forward_PE := Some (25 # 2)%Q;
     App.Dividend_Yield := Some (41 # 10)%Q |}.

Definition miner : App.CsvRow :=
  {| App.Ticker := Some "TECK-B.TO";
     App.Price := Some 50%Q;
     App.Currency := Some "CAD";
     App.Target_Price := Some 55%Q;
     App.Upside_Potential := Some 10%Q;
     App.Num_Analysts := Some 20%Q;
     App.Strong_Buy := Some 5%Q;
     App.Buy := Some 10%Q;
     App.Hold := Some 5%Q;
     App.Sell := Some 0%Q;
     App.Strong_Sell := Some 0%Q;
     App.Rating := Some "buy";
     App.Sector := Some "Basic Materials";
     App.Trailing_PE := None;
     App.Forward_PE := Some 18%Q;
     App.Dividend_Yield := Some 1%Q |}.

(** A row as the fetch script writes it for a stock whose [info] has no
    [numberOfAnalystOpinions] and that has no recommendation frame: the
    analyst count is the default 0, and so is every rating count. *)
Definition unfollowed : App.CsvRow :=
  {| App.Ticker := Some "ZZZ";
     App.Price := Some 8%Q;
     App.Currency := Some "USD";
     App.Target_Price := Some 10%Q;
     App.Upside_Potential := Some 25%Q;
     App.Num_Analysts := Some 0%Q;
     App.Strong_Buy := Some 0%Q;
     App.Buy := Some 0%Q;
     App.Hold := Some 0%Q;
     App.Sell := Some 0%Q;
     App.Strong_Sell := Some 0%Q;
     App.Rating := Some "none";
     App.Sector := Some "Technology";
     App.Trailing_PE := None;
     App.Forward_PE := None;
     App.Dividend_Yield := Some 0%Q |}.

Definition wide_open (o : App.sort_option) : App.Controls :=
  {| App.selected_sectors := ["Basic Materials"; "Financial Services"];
     App.min_analysts := 0%Z;
     App.min_upside := 0%Q;
     App.min_div := 0%Q;
     App.rating_filter := [Some "buy"];
     App.sort_col := o |}.

Definition raised_upside : App.Controls :=
  {| App.selected_sectors := ["Basic Materials"; "Financial Services"];
     App.min_analysts := 0%Z;
     App.min_upside := 20%Q;
     App.min_div := 0%Q;
     App.rating_filter := [Some "buy"];
     App.sort_col := App.by_Upside_Potential |}.

End Samples.

(** * Properties *)

Module FetchDataProofs.
Import FetchData.

(** ** Strings and numbers on examples *)

Example replace_dot : str_replace "BRK.B" "." "-" = "BRK-B".
Proof. reflexivity. Qed.

Example replace_to : str_replace "RY.TO" ".TO" ".NE" = "RY.NE".
Proof. reflexivity. Qed.

Example strip_ex : strip "  TECK.B " = "TECK.B".
Proof. reflexivity. Qed.

(** A no-break space (U+00A0, bytes 194 160) around a symbol is stripped
    too. *)
Example strip_nbsp :
  strip (String (ascii_of_nat 194) (String (ascii_of_nat 160)
           ("RY " +:+ String (ascii_of_nat 226) (String (ascii_of_nat 128)
              (String (ascii_of_nat 175) EmptyString)))))
  = "RY".
Proof. reflexivity. Qed.

Example clean_ticker_ex : clean_ticker (Some " TECK.B ") = "TECK-B.TO".
Proof. reflexivity. Qed.

(** [round(((183 - 160) / 160) * 100, 2)] is the float 14.37: the product
    is the float just below 14.375. *)
Example upside_160_183 :
  percentage 160 183 = (8092405580431359 # 562949953421312)%Q
  ∧ round_half_even (percentage 160 183 * 100) = 1437%Z
  ∧ round2 (percentage 160 183) = fl (1437 # 100)
  ∧ round2 (percentage 160 183) = (8089590830664253 # 562949953421312)%Q.
Proof. by vm_compute. Qed.

Example upside_80_100 : round2 (percentage 80 100) = 25%Q.
Proof. by vm_compute. Qed.

(** ** The alternate symbol on the tickers the aggregator builds *)

Lemma replace_dot_dotless (s : string) :
  has_dot (replace_from "." "-" 0 s) = false.
Proof.
  induction s as [|c rest IH]; [done|].
  cbn [replace_from String.prefix String.length Nat.sub].
  destruct (ascii_dec "." c) as [<-|Hne].
  - destruct rest; simpl; exact IH.
  - simpl. rewrite IH, orb_false_r. apply Ascii.eqb_neq. congruence.
Qed.

Lemma substring_dot (n m : nat) (s r : string) :
  String.substring n m s = String "." r → has_dot s = true.
Proof.
  revert n m r. induction s as [|c rest IH]; intros n m r.
  - by destruct n, m.
  - destruct n as [|n]; simpl.
    + destruct m as [|m]; [done|]. intros [= -> _]. done.
    + intros H. apply IH in H. rewrite H. apply orb_true_r.
Qed.

Lemma dotless_not_to (t : string) :
  has_dot t = false → endswith t ".TO" = false.
Proof.
  intros Hdot. unfold endswith.
  destruct (String.eqb_spec
              (String.substring (String.length t - String.length ".TO")
                 (String.length ".TO") t) ".TO") as [Heq|Hne];
    [|apply andb_false_r].
  apply substring_dot in Heq. congruence.
Qed.

Lemma alternate_dotless (base : string) :
  has_dot base = false → alternate (base +:+ ".TO") = base +:+ ".NE".
Proof.
  unfold alternate, str_replace. induction base as [|c base IH]; [done|].
  simpl has_dot. intros [Hc Hb]%orb_false_elim. apply Ascii.eqb_neq in Hc.
  change (String c base +:+ ".TO") with (String c (base +:+ ".TO")).
  cbn [replace_from String.prefix].
  destruct (ascii_dec "." c) as [<-|_]; [done|].
  change (String c base +:+ ".NE") with (String c (base +:+ ".NE")).
  f_equal. by apply IH.
Qed.

Lemma substring_prefix (base s : string) :
  String.substring 0 (String.length base) (base +:+ s) = base.
Proof.
  induction base as [|c base IH]; simpl.
  - by destruct s.
  - by rewrite IH.
Qed.

Lemma length_append_suffix (base s : string) :
  String.length (base +:+ s) = (String.length base + String.length s)%nat.
Proof. induction base as [|c base IH]; simpl; [done|]. by rewrite IH. Qed.

Lemma suffix_replaced_to (base : string) :
  suffix_replaced (base +:+ ".TO") = base +:+ ".NE".
Proof.
  unfold suffix_replaced. rewrite length_append_suffix.
  replace (String.length base + String.length ".TO" - 3)%nat
    with (String.length base) by (simpl; lia).
  by rewrite substring_prefix.
Qed.

(** A ticker of the TSX scraper is a dot-free symbol followed by [.TO]:
    its alternate is the ticker with the suffix swapped. *)
Lemma clean_ticker_alternate (c : cell) :
  ∃ base, has_dot base = false
          ∧ clean_ticker c = base +:+ ".TO"
          ∧ alternate (clean_ticker c) = suffix_replaced (clean_ticker c).
Proof.
  unfold clean_ticker.
  set (t := str_replace (strip (cell_str c)) "." "-").
  assert (has_dot t = false) as Hdot by apply replace_dot_dotless.
  rewrite (dotless_not_to t Hdot). cbn [negb].
  exists t. split_and!; [done..|].
  by rewrite alternate_dotless, suffix_replaced_to.
Qed.

(** A ticker without a dot is asked for once. *)
Lemma dotless_attempted_once (ticker : string) :
  has_dot ticker = false → attempts_of ticker = [ticker].
Proof.
  intros H. unfold attempts_of. by rewrite (dotless_not_to ticker H).
Qed.

(** ** De-duplication *)

Lemma elem_of_dedup (x : string) (l : list string) : x ∈ dedup l ↔ x ∈ l.
Proof. unfold dedup. by rewrite elem_of_elements, elem_of_list_to_set. Qed.

Lemma dedup_to_set (l : list string) :
  list_to_set (dedup l) = (list_to_set l : gset string).
Proof. unfold dedup. apply list_to_set_elements_L. Qed.

(** ** Scrapers *)

(** On a ticker of the aggregator's shape, replacing every [.TO] is
    swapping the three-character suffix. *)
Lemma shaped_alternate (ticker : string) :
  aggregator_shaped ticker → alternate ticker = suffix_replaced ticker
                             ∨ endswith ticker ".TO" = false.
Proof.
  intros [Hdot | (base & Hdot & ->)].
  - right. by apply dotless_not_to.
  - left. by rewrite alternate_dotless, suffix_replaced_to.
Qed.

Section ScraperFacts.
Variable requests_get : string -> result string.
Variable read_html : string -> result (list table).

Lemma has_column_possible (df : table) (name : string) :
  no_ticker_column df → name ∈ possible_names → has_column df name = false.
Proof. intros H Hin. by apply H. Qed.

Lemma column_absent (df : table) (name : string) :
  has_column df name = false → column df name = Raise KeyError.
Proof.
  unfold has_column, column. intros H.
  destruct (List.find _ df) as [c|] eqn:Hf; [|done].
  apply find_some in Hf as [Hin Heq].
  assert (existsb (λ c, String.eqb c.1 name) df = true) as Hex.
  { apply existsb_exists. eauto. }
  congruence.
Qed.

Lemma find_no_table2 (n1 n2 : string) (tables : list table) :
  n1 ∈ possible_names → n2 ∈ possible_names →
  Forall no_ticker_column tables →
  List.find (λ df, has_column df n1 || has_column df n2) tables = None.
Proof.
  intros H1 H2 Hall. induction Hall as [|df tables Hdf _ IH]; [done|].
  simpl. by rewrite IH, (Hdf n1), (Hdf n2).
Qed.

Lemma find_names_absent (df : table) :
  no_ticker_column df → List.find (λ name, has_column df name) possible_names = None.
Proof.
  intros H. unfold possible_names. simpl.
  rewrite !H; [done|..]; unfold possible_names; set_solver.
Qed.

Lemma sp500_no_table (tables : list table) :
  Forall no_ticker_column tables →
  try_except (df <-' py_index tables 0;
              symbols <-' column df "Symbol";
              comprehension (λ t, cell_replace t "." "-") symbols)
             (λ _, []) = [].
Proof.
  intros Hall. destruct tables as [|df tables]; [done|].
  apply Forall_cons in Hall as [Hdf _]. simpl.
  rewrite column_absent; [done|].
  apply Hdf. unfold possible_names. set_solver.
Qed.

Lemma tsx_no_table (tables : list table) :
  Forall no_ticker_column tables →
  try_except
    (if tsx_guard tables then Ok []
     else
       df <-' py_index tables 3;
       match List.find (λ name, has_column df name) possible_names with
       | None => Ok []
       | Some col_name =>
           if String.eqb col_name "" then Ok []
           else cells <-' column df col_name; Ok (map clean_ticker cells)
       end)
    (λ _, []) = [].
Proof.
  intros Hall. destruct (tsx_guard tables); [done|].
  unfold py_index. destruct (tables !! 3%nat) as [df|] eqn:Hdf; [|done].
  cbn [rbind]. rewrite find_names_absent; [done|].
  rewrite Forall_forall in Hall. apply Hall.
  by eapply list_elem_of_lookup_2.
Qed.

(** C8.  Each of the four scrapers returns the empty list when its page
    cannot be fetched, when parsing it raises, or when no parsed table
    has a ticker or symbol column; being total functions into lists,
    they never raise. *)
Theorem scrapers_empty_on_failure (s : source) :
  page_unavailable requests_get s
  ∨ parse_fails requests_get read_html s
  ∨ no_ticker_table requests_get read_html s →
  scraper requests_get read_html s = [].
Proof.
  intros [[e He] | [(html & e & Hget & Hparse)
                   | (html & tables & Hget & Hparse & Hall)]].
  - destruct s; simpl in He; simpl;
      unfold get_sp500_tickers, sp500_body, get_nasdaq100_tickers,
        nasdaq100_body, get_russell1000_tickers, russell1000_body,
        get_tsx_composite_tickers, tsx_body;
      by rewrite He.
  - destruct s; simpl in Hget; simpl;
      unfold get_sp500_tickers, sp500_body, get_nasdaq100_tickers,
        nasdaq100_body, get_russell1000_tickers, russell1000_body,
        get_tsx_composite_tickers, tsx_body;
      rewrite Hget; simpl; by rewrite Hparse.
  - destruct s; simpl in Hget; simpl.
    + unfold get_sp500_tickers, sp500_body. rewrite Hget. simpl.
      rewrite Hparse. simpl. by apply sp500_no_table.
    + unfold get_nasdaq100_tickers, nasdaq100_body. rewrite Hget. simpl.
      rewrite Hparse. simpl.
      pose proof (find_no_table2 "Ticker" "Symbol" tables) as Hf.
      rewrite Hf; [done|set_solver..|done].
    + unfold get_russell1000_tickers, russell1000_body. rewrite Hget. simpl.
      rewrite Hparse. simpl.
      pose proof (find_no_table2 "Symbol" "Ticker" tables) as Hf.
      rewrite Hf; [done|set_solver..|done].
    + unfold get_tsx_composite_tickers, tsx_body. rewrite Hget. simpl.
      rewrite Hparse. simpl. by apply tsx_no_table.
Qed.

Lemma comprehension_replace_dotless (cells : list cell) (l : list string) :
  comprehension (λ t, cell_replace t "." "-") cells = Ok l →
  Forall (λ t, has_dot t = false) l.
Proof.
  revert l. induction cells as [|c cells IH]; intros l; simpl.
  - intros [= <-]. constructor.
  - destruct c as [s|]; simpl; [|done].
    destruct (comprehension _ cells) as [l'|e]; simpl; [|done].
    intros [= <-]. constructor; [apply replace_dot_dotless|by apply IH].
Qed.

Lemma try_except_Forall {A} (P : A → Prop) (body : result (list A)) :
  (∀ l, body = Ok l → Forall P l) → Forall P (try_except body (λ _, [])).
Proof. destruct body as [l|e]; simpl; [auto|constructor]. Qed.

Lemma scraped_tickers_shaped (s : source) :
  Forall aggregator_shaped (scraper requests_get read_html s).
Proof.
  destruct s; simpl; apply try_except_Forall; intros l.
  - unfold sp500_body.
    destruct (requests_get sp500_url) as [html|]; [|done]. cbn [rbind].
    destruct (read_html html) as [tables|]; [|done]. cbn [rbind].
    destruct (py_index tables 0) as [df|]; [|done]. cbn [rbind].
    destruct (column df "Symbol") as [cells|]; [|done]. cbn [rbind].
    intros H%comprehension_replace_dotless.
    eapply Forall_impl; [exact H|]. by left.
  - unfold nasdaq100_body.
    destruct (requests_get nasdaq100_url) as [html|]; [|done]. cbn [rbind].
    destruct (read_html html) as [tables|]; [|done]. cbn [rbind].
    destruct (List.find _ tables) as [df|]; [|intros [= <-]; constructor].
    destruct (column df _) as [cells|]; [|done]. cbn [rbind].
    intros H%comprehension_replace_dotless.
    eapply Forall_impl; [exact H|]. by left.
  - unfold russell1000_body.
    destruct (requests_get russell1000_url) as [html|]; [|done]. cbn [rbind].
    destruct (read_html html) as [tables|]; [|done]. cbn [rbind].
    destruct (List.find _ tables) as [df|]; [|intros [= <-]; constructor].
    destruct (column df _) as [cells|]; [|done]. cbn [rbind].
    intros H%comprehension_replace_dotless.
    eapply Forall_impl; [exact H|]. by left.
  - unfold tsx_body.
    destruct (requests_get tsx_url) as [html|]; [|done]. cbn [rbind].
    destruct (read_html html) as [tables|]; [|done]. cbn [rbind].
    destruct (tsx_guard tables); [intros [= <-]; constructor|].
    destruct (py_index tables 3) as [df|]; [|done]. cbn [rbind].
    destruct (List.find _ possible_names) as [col_name|];
      [|intros [= <-]; constructor].
    destruct (String.eqb col_name ""); [intros [= <-]; constructor|].
    destruct (column df col_name) as [cells|]; [|done]. cbn [rbind].
    intros [= <-]. apply Forall_map, Forall_true. intros c.
    destruct (clean_ticker_alternate c) as (base & Hbase & Heq & _).
    right. by exists base.
Qed.

(** Every ticker the [__main__] block passes to the retrieval loop has the
    aggregator's shape. *)
Lemma master_list_shaped (ticker : string) :
  ticker ∈ master_list requests_get read_html → aggregator_shaped ticker.
Proof.
  unfold master_list. rewrite elem_of_dedup, !elem_of_app.
  intros Hin.
  pose proof (scraped_tickers_shaped SP500) as H1.
  pose proof (scraped_tickers_shaped Nasdaq100) as H2.
  pose proof (scraped_tickers_shaped Russell1000) as H3.
  pose proof (scraped_tickers_shaped TSXComposite) as H4.
  rewrite Forall_forall in H1, H2, H3, H4. simpl in H1, H2, H3, H4.
  destruct Hin as [?|[?|[?|[?|Hc]]]]; [auto..|].
  left. revert Hc. unfold get_custom_tickers. set_unfold.
  intros Hc. repeat (destruct Hc as [-> | Hc]; [reflexivity|]). done.
Qed.

(** X7.  Every ticker of the master list has the aggregator's shape, so the
    alternate requested for it is the ticker with its suffix swapped. *)
Lemma master_list_alternate (ticker : string) :
  ticker ∈ master_list requests_get read_html →
  aggregator_shaped ticker
  ∧ (endswith ticker ".TO" = true → alternate ticker = suffix_replaced ticker).
Proof.
  intros Hin%master_list_shaped. split; [done|].
  intros Hto. destruct (shaped_alternate _ Hin) as [?|Hno]; [done|].
  congruence.
Qed.

End ScraperFacts.

Lemma scrapers_empty_on_failure_witness :
  (page_unavailable Samples.offline_web SP500
   ∧ scraper Samples.offline_web Samples.no_tables SP500 = [])
  ∧ (parse_fails Samples.plain_web Samples.no_tables Nasdaq100
     ∧ scraper Samples.plain_web Samples.no_tables Nasdaq100 = [])
  ∧ (no_ticker_table Samples.plain_web Samples.read_three TSXComposite
     ∧ scraper Samples.plain_web Samples.read_three TSXComposite = []).
Proof.
  assert (page_unavailable Samples.offline_web SP500) as H1.
  { by exists ConnectionError. }
  assert (parse_fails Samples.plain_web Samples.no_tables Nasdaq100) as H2.
  { by exists "<html></html>", ValueError. }
  assert (no_ticker_table Samples.plain_web Samples.read_three TSXComposite)
    as H3.
  { exists "<html></html>", Samples.three_tables. split_and!; [done..|].
    unfold Samples.three_tables.
    repeat constructor; intros name Hin; unfold possible_names in Hin;
      set_unfold; destruct Hin as [->|[->|[->|[]]]]; reflexivity. }
  split_and!; [done| |done| |done|].
  - apply (scrapers_empty_on_failure _ _ SP500). by left.
  - apply (scrapers_empty_on_failure _ _ Nasdaq100). right. by left.
  - apply (scrapers_empty_on_failure _ _ TSXComposite). right. by right.
Defined.

(** The index access [tables[3]] succeeds exactly from four tables on. *)
Lemma py_index_3_ok (tables : list table) :
  (∃ df, py_index tables 3 = Ok df) ↔ (4 ≤ length tables)%nat.
Proof.
  unfold py_index. split.
  - intros [df H]. destruct (tables !! 3%nat) eqn:E; [|done].
    apply lookup_lt_Some in E. lia.
  - intros H. destruct (lookup_lt_is_Some_2 tables 3%nat) as [df E]; [lia|].
    exists df. by rewrite E.
Qed.

(** C10.  With exactly three parsed tables the guard [len(tables) < 3] does
    not fire and [tables[3]] is out of range: the access raises
    [IndexError], which the enclosing handler turns into an empty list.
    The guard therefore does not make the access safe. *)
Theorem tsx_guard_three_tables (t0 t1 t2 : table) :
  let tables := [t0; t1; t2] in
  tsx_guard tables = false
  ∧ py_index tables 3 = Raise IndexError
  ∧ get_tsx_composite_tickers Samples.plain_web (λ _, Ok tables) = []
  ∧ ¬ (∀ tables : list table,
         tsx_guard tables = false → ∃ df, py_index tables 3 = Ok df).
Proof.
  simpl. split_and!; [done..|].
  intros H. destruct (H [t0; t1; t2]) as [df Hdf]; [done|]. discriminate.
Qed.

(** ** The ticker universe *)

(** C4.  De-duplication through a set is idempotent, does not depend on
    the order of the concatenated source lists, and keeps exactly the
    tickers of the union of the five lists, each once. *)
Theorem dedup_idempotent_order_independent
    (sp500 nasdaq russell tsx custom : list string) :
  let all := sp500 ++ nasdaq ++ russell ++ tsx ++ custom in
  dedup (dedup all) = dedup all
  ∧ (∀ reordered, reordered ≡ₚ all → dedup reordered = dedup all)
  ∧ (list_to_set (dedup all) : gset string)
    = list_to_set sp500 ∪ list_to_set nasdaq ∪ list_to_set russell
      ∪ list_to_set tsx ∪ list_to_set custom
  ∧ (∀ x, x ∈ dedup all
          ↔ x ∈ sp500 ∨ x ∈ nasdaq ∨ x ∈ russell ∨ x ∈ tsx ∨ x ∈ custom)
  ∧ NoDup (dedup all).
Proof.
  intros all. split_and!.
  - unfold dedup at 1. by rewrite dedup_to_set.
  - intros reordered Hperm. unfold dedup. by rewrite Hperm.
  - rewrite dedup_to_set. unfold all.
    rewrite !list_to_set_app_L. by rewrite !(assoc_L (∪)).
  - intros x. rewrite elem_of_dedup. unfold all.
    rewrite !elem_of_app. tauto.
  - unfold dedup. apply NoDup_elements.
Qed.

Lemma dedup_idempotent_order_independent_witness :
  ["B"; "A"; "A"; "C"; "D"; "E"] ≡ₚ ["A"; "B"] ++ ["A"] ++ ["C"] ++ ["D"] ++ ["E"]
  ∧ dedup ["B"; "A"; "A"; "C"; "D"; "E"]
    = dedup (["A"; "B"] ++ ["A"] ++ ["C"] ++ ["D"] ++ ["E"]).
Proof.
  assert (["B"; "A"; "A"; "C"; "D"; "E"]
          ≡ₚ ["A"; "B"] ++ ["A"] ++ ["C"] ++ ["D"] ++ ["E"]) as Hperm.
  { simpl. apply perm_swap. }
  split; [exact Hperm|].
  by apply (dedup_idempotent_order_independent
              ["A"; "B"] ["A"] ["C"] ["D"] ["E"]).
Defined.

(** ** Rounding *)

Lemma round_half_even_close (x : Q) :
  (Qabs (inject_Z (round_half_even x) - x) <= 1 # 2)%Q.
Proof.
  unfold round_half_even.
  pose proof (Qfloor_le x) as Hlo. pose proof (Qlt_floor x) as Hhi.
  rewrite inject_Z_plus in Hhi. change (inject_Z 1) with 1%Q in Hhi.
  apply Qabs_Qle_condition.
  destruct (Qcompare_spec (x - inject_Z (Qfloor x)) (1 # 2)) as [He|Hl|Hg].
  - destruct (Z.even (Qfloor x));
      rewrite ?inject_Z_plus; change (inject_Z 1) with 1%Q; lra.
  - lra.
  - rewrite inject_Z_plus. change (inject_Z 1) with 1%Q. lra.
Qed.

(** The decimal that [round2 x] converts to a float is a whole number of
    hundredths at most half a hundredth away from [x]. *)
Lemma two_decimals_close (x : Q) :
  (Qabs ((round_half_even (x * 100) # 100) - x) <= 1 # 200)%Q.
Proof.
  pose proof (round_half_even_close (x * 100)) as H.
  apply Qabs_Qle_condition in H. apply Qabs_Qle_condition.
  set (n := round_half_even (x * 100)) in *.
  assert (n # 100 == inject_Z n * (1 # 100))%Q as ->.
  { unfold Qeq, inject_Z, Qmult. simpl. lia. }
  lra.
Qed.

(** ** One attempt *)

Lemma dict_get_num (d : gmap string value) (key : string) (q : Q) :
  dict_get d key = VNum q → d !! key = Some (VNum q).
Proof.
  unfold dict_get. destruct (d !! key) as [v|]; simpl; [|done]. by intros ->.
Qed.

(** The upside is computed only from two non-zero numbers. *)
Lemma upside_of_ok (tm cp u : value) :
  truthy cp && truthy tm = true →
  upside_of tm cp = Ok u →
  ∃ c t : Q, cp = VNum c ∧ tm = VNum t ∧ ¬ (c == 0)%Q ∧ ¬ (t == 0)%Q
             ∧ u = VNum (percentage c t).
Proof.
  intros Htruthy Hup. apply andb_true_iff in Htruthy as [Hc Ht].
  destruct cp as [|c|s1], tm as [|t|s2]; try discriminate.
  simpl in Hc, Ht. apply negb_true_iff in Hc, Ht.
  unfold upside_of, py_sub, py_div, py_mul in Hup. cbn [rbind] in Hup.
  rewrite Hc in Hup. cbn [rbind] in Hup. injection Hup as <-.
  exists c, t. split_and!; try done; by apply Qeq_bool_neq.
Qed.

(** Whatever row an attempt appends is built from the [info] it fetched:
    both prices are non-zero numbers and every field is read as the source
    writes it. *)
Lemma attempt_body_row (stock : Stock) (cur : string) (r : Row) :
  attempt_body stock cur = Ok (Some r) →
  ∃ (d : gmap string value) (c t : Q),
    info stock = Ok d
    ∧ d !! "currentPrice" = Some (VNum c)
    ∧ d !! "targetMeanPrice" = Some (VNum t)
    ∧ ¬ (c == 0)%Q ∧ ¬ (t == 0)%Q
    ∧ Ticker r = cur ∧ Price r = VNum c ∧ Target_Price r = VNum t
    ∧ Upside_Potential r = round2 (percentage c t)
    ∧ Dividend_Yield r
      = match dict_get_default d "dividendYield" (VNum 0) with
        | VNone => VNum 0
        | v => v
        end
    ∧ Trailing_PE r = dict_get d "trailingPE"
    ∧ Forward_PE r = dict_get d "forwardPE"
    ∧ Currency r = dict_get_default d "currency" (VStr "USD")
    ∧ Num_Analysts r = dict_get_default d "numberOfAnalystOpinions" (VNum 0)
    ∧ Rating r = dict_get_default d "recommendationKey" (VStr "N/A")
    ∧ Sector r = dict_get_default d "sector" (VStr "Unknown").
Proof.
  unfold attempt_body. destruct (info stock) as [d|e]; [|discriminate].
  cbn [rbind].
  destruct (truthy (dict_get d "currentPrice")
            && truthy (dict_get d "targetMeanPrice")) eqn:Htruthy.
  2:{ destruct (Ok VNone) as [?|?]; discriminate. }
  destruct (upside_of _ _) as [u|e] eqn:Hup; [|discriminate].
  cbn [rbind].
  destruct (upside_of_ok _ _ _ Htruthy Hup) as (c & t & Hc & Ht & Hc0 & Ht0 & ->).
  cbn [py_round2 rbind].
  destruct (py_int (strong_buy _)); [|discriminate].
  destruct (py_int (buy _)); [|discriminate].
  destruct (py_int (hold _)); [|discriminate].
  destruct (py_int (sell _)); [|discriminate].
  destruct (py_int (strong_sell _)); [|discriminate].
  cbn [rbind]. intros [= <-]. exists d, c, t. cbn.
  split_and!; try done; try (by apply dict_get_num).
  by destruct (dict_get_default d "dividendYield" (VNum 0)).
Qed.

(** Conversely, an attempt whose [info] holds both prices as non-zero
    numbers appends a row, unless a recommendation count is NaN. *)
Lemma attempt_body_appends (stock : Stock) (cur : string)
    (d : gmap string value) (c t : Q) :
  info stock = Ok d →
  d !! "currentPrice" = Some (VNum c) →
  d !! "targetMeanPrice" = Some (VNum t) →
  ¬ (c == 0)%Q → ¬ (t == 0)%Q →
  counts_are_numbers (analyst_counts stock) →
  ∃ r, attempt_body stock cur = Ok (Some r)
       ∧ Upside_Potential r = round2 (percentage c t).
Proof.
  intros Hd Hc Ht Hc0 Ht0 ([sb Hsb] & [b Hb] & [h Hh] & [s Hs] & [ss Hss]).
  assert (dict_get d "currentPrice" = VNum c) as Hcp
    by (unfold dict_get; by rewrite Hc).
  assert (dict_get d "targetMeanPrice" = VNum t) as Htm
    by (unfold dict_get; by rewrite Ht).
  unfold attempt_body. rewrite Hd. cbn [rbind]. rewrite !Hcp, !Htm.
  assert (Qeq_bool c 0 = false) as Ec.
  { destruct (Qeq_bool c 0) eqn:E; [|done]. by apply Qeq_bool_eq in E. }
  assert (Qeq_bool t 0 = false) as Et.
  { destruct (Qeq_bool t 0) eqn:E; [|done]. by apply Qeq_bool_eq in E. }
  cbn [truthy]. rewrite Ec, Et. cbn [negb andb].
  unfold upside_of, py_sub, py_div, py_mul. cbn [rbind]. rewrite Ec.
  cbn [rbind py_round2]. rewrite Hsb, Hb, Hh, Hs, Hss. cbn [py_int rbind].
  eexists. split; reflexivity.
Qed.

Lemma zero_counts_are_numbers : counts_are_numbers zero_counts.
Proof. unfold counts_are_numbers, zero_counts. simpl. by split_and!. Qed.

Lemma no_recommendations_counts (stock : Stock) :
  (∃ e, recommendations stock = Raise e)
  ∨ recommendations stock = Ok None
  ∨ recommendations stock = Ok (Some []) →
  analyst_counts stock = zero_counts.
Proof.
  unfold analyst_counts. by intros [[e ->] | [-> | ->]].
Qed.

Lemma attempt_body_counts (stock : Stock) (cur : string) (r : Row) :
  attempt_body stock cur = Ok (Some r) →
  py_int (strong_buy (analyst_counts stock)) = Ok (Strong_Buy r)
  ∧ py_int (buy (analyst_counts stock)) = Ok (Buy r)
  ∧ py_int (hold (analyst_counts stock)) = Ok (Hold r)
  ∧ py_int (sell (analyst_counts stock)) = Ok (Sell r)
  ∧ py_int (strong_sell (analyst_counts stock)) = Ok (Strong_Sell r).
Proof.
  unfold attempt_body. destruct (info stock) as [d|e]; [|discriminate].
  cbn [rbind].
  destruct (truthy (dict_get d "currentPrice")
            && truthy (dict_get d "targetMeanPrice")) eqn:Htruthy.
  2:{ destruct (Ok VNone) as [?|?]; discriminate. }
  destruct (upside_of _ _) as [u|e] eqn:Hup; [|discriminate].
  cbn [rbind].
  destruct (upside_of_ok _ _ _ Htruthy Hup) as (c & t & _ & _ & _ & _ & ->).
  cbn [py_round2 rbind].
  destruct (py_int (strong_buy _)); [|discriminate].
  destruct (py_int (buy _)); [|discriminate].
  destruct (py_int (hold _)); [|discriminate].
  destruct (py_int (sell _)); [|discriminate].
  destruct (py_int (strong_sell _)); [|discriminate].
  cbn [rbind]. by intros [= <-].
Qed.

Lemma py_int_ok_some (c : option Q) (z : Z) : py_int c = Ok z → is_Some c.
Proof. destruct c; [by eauto|done]. Qed.

Lemma series_get_is_Some (latest : gmap string (option Q)) (key : string) :
  is_Some (series_get latest key) ↔ latest !! key ≠ Some None.
Proof.
  unfold series_get. destruct (latest !! key) as [[q|]|]; simpl.
  - split; [done|by eexists].
  - split; [by intros [? ?]|done].
  - split; [done|by eexists].
Qed.

Lemma counts_usable_iff (stock : Stock) :
  counts_are_numbers (analyst_counts stock) ↔ usable_counts stock.
Proof.
  unfold analyst_counts, usable_counts, count_columns.
  destruct (recommendations stock) as [[[|latest rest]|]|e]; cbn [rbind try_except];
    try (split; [done|intros _; apply zero_counts_are_numbers]).
  unfold counts_are_numbers. cbn [strong_buy buy hold sell strong_sell].
  rewrite !Forall_cons, !series_get_is_Some. split.
  - intros (? & ? & ? & ? & ?). by split_and!.
  - intros (? & ? & ? & ? & ? & _). by split_and!.
Qed.

(** An attempt appends a row exactly when the source answers, and the row
    then carries the symbol asked for and the two prices of [info]. *)
Lemma attempt_body_answers (stock : Stock) (cur : string) :
  answers stock →
  ∃ r d c t,
    attempt_body stock cur = Ok (Some r)
    ∧ info stock = Ok d
    ∧ d !! "currentPrice" = Some (VNum c)
    ∧ d !! "targetMeanPrice" = Some (VNum t)
    ∧ Ticker r = cur ∧ Price r = VNum c ∧ Target_Price r = VNum t.
Proof.
  intros (d & c & t & Hd & Hc & Ht & Hc0 & Ht0 & Hcounts%counts_usable_iff).
  destruct (attempt_body_appends stock cur d c t Hd Hc Ht Hc0 Ht0 Hcounts)
    as (r & Hr & _).
  exists r, d, c, t. split_and!; try done;
    apply attempt_body_row in Hr
      as (d' & c' & t' & Hd' & Hc' & Ht' & _ & _ & Hticker & Hp & Htp & _);
    rewrite Hd in Hd'; injection Hd' as <-; congruence.
Qed.

Lemma attempt_body_some_answers (stock : Stock) (cur : string) (r : Row) :
  attempt_body stock cur = Ok (Some r) → answers stock.
Proof.
  intros Hbody.
  pose proof (attempt_body_counts _ _ _ Hbody) as (H1 & H2 & H3 & H4 & H5).
  apply attempt_body_row in Hbody
    as (d & c & t & Hd & Hc & Ht & Hc0 & Ht0 & _).
  exists d, c, t. split_and!; try done.
  apply counts_usable_iff. unfold counts_are_numbers.
  split_and!; by eapply py_int_ok_some.
Qed.

(** ** The retrieval loop *)

Section FetchFacts.
Variable yf_Ticker : list string -> string -> Stock.

(** The loop body for one ticker, with its flag and [break] resolved. *)
Lemma process_ticker_eq (total i : nat) (ticker : string) (st : state) :
  process_ticker yf_Ticker total i ticker st =
  match try_attempt yf_Ticker (requests st) ticker with
  | Some r =>
      {| data_list := data_list st ++ [r];
         requests := requests st ++ [ticker];
         stdout := stdout st ++ [Succeeded (i + 1) total ticker] |}
  | None =>
      if endswith ticker ".TO" then
        match try_attempt yf_Ticker (requests st ++ [ticker])
                (alternate ticker) with
        | Some r =>
            {| data_list := data_list st ++ [r];
               requests := (requests st ++ [ticker]) ++ [alternate ticker];
               stdout := stdout st
                         ++ [Succeeded (i + 1) total (alternate ticker)] |}
        | None =>
            {| data_list := data_list st;
               requests := (requests st ++ [ticker]) ++ [alternate ticker];
               stdout := stdout st ++ [Failed (i + 1) total ticker] |}
        end
      else
        {| data_list := data_list st;
           requests := requests st ++ [ticker];
           stdout := stdout st ++ [Failed (i + 1) total ticker] |}
  end.
Proof.
  unfold process_ticker, attempts_of.
  destruct (endswith ticker ".TO"); cbn [app attempt_loop];
    destruct (try_attempt yf_Ticker (requests st) ticker) as [r|];
    cbn [requests data_list stdout negb]; try reflexivity.
  destruct (try_attempt yf_Ticker (requests st ++ [ticker]) _) as [r|];
    reflexivity.
Qed.

Lemma ticker_loop_app (total i : nat) (l1 l2 : list string) (st : state) :
  ticker_loop yf_Ticker total i (l1 ++ l2) st
  = ticker_loop yf_Ticker total (i + length l1) l2
      (ticker_loop yf_Ticker total i l1 st).
Proof.
  revert i st. induction l1 as [|t l1 IH]; intros i st; simpl.
  - by rewrite Nat.add_0_r.
  - rewrite IH. f_equal. lia.
Qed.

Lemma process_ticker_requests (total i : nat) (ticker : string) (st : state) :
  requests (process_ticker yf_Ticker total i ticker st)
  = requests st ++ asked yf_Ticker (requests st) ticker.
Proof.
  rewrite process_ticker_eq. unfold asked.
  destruct (try_attempt yf_Ticker (requests st) ticker) as [r|] eqn:H1.
  - rewrite bool_decide_eq_false_2 by done. by rewrite andb_false_r.
  - rewrite bool_decide_eq_true_2 by done. rewrite andb_true_r.
    destruct (endswith ticker ".TO"); [|done].
    destruct (try_attempt yf_Ticker _ (alternate ticker));
      cbn [requests]; by rewrite <- (assoc_L (++)).
Qed.

End FetchFacts.

(** ** Retries *)

Lemma asked_cases yf (log : list string) (ticker : string) :
  (asked yf log ticker = [ticker]
   ∨ asked yf log ticker = [ticker; alternate ticker])
  ∧ (asked yf log ticker = [ticker; alternate ticker]
     ↔ endswith ticker ".TO" = true ∧ try_attempt yf log ticker = None)
  ∧ (endswith ticker ".TO" = false → asked yf log ticker = [ticker]).
Proof.
  unfold asked. destruct (endswith ticker ".TO"); cbn [andb].
  - case_bool_decide as H; split_and!; try tauto; try done.
    split; [done|]. intros [_ H']. by rewrite H' in H.
  - split_and!; [by left| |done]. split; [done|]. by intros [? _].
Qed.

Lemma ticker_loop_requests yf (total i : nat) (tickers : list string)
    (st : state) :
  ∃ segments : list (list string),
    requests (ticker_loop yf total i tickers st)
    = requests st ++ concat segments
    ∧ Forall2 (λ ticker made,
                 made = [ticker]
                 ∨ endswith ticker ".TO" = true
                   ∧ made = [ticker; alternate ticker])
        tickers segments.
Proof.
  revert i st. induction tickers as [|t tickers IH]; intros i st.
  - exists []. simpl. by rewrite app_nil_r.
  - simpl. destruct (IH (S i) (process_ticker yf total i t st))
      as (segments & Hreq & Hall).
    exists (asked yf (requests st) t :: segments). split.
    + rewrite Hreq, process_ticker_requests. simpl.
      by rewrite <- (assoc_L (++)).
    + constructor; [|done].
      destruct (asked_cases yf (requests st) t) as ([H|H] & Hiff & _);
        [by left|].
      right. split; [|done]. by apply Hiff.
Qed.

Lemma asked_shaped yf (log : list string) (ticker : string) :
  aggregator_shaped ticker →
  (asked yf log ticker = [ticker]
   ∨ asked yf log ticker = [ticker; suffix_replaced ticker])
  ∧ (asked yf log ticker = [ticker; suffix_replaced ticker]
     ↔ endswith ticker ".TO" = true ∧ try_attempt yf log ticker = None)
  ∧ (endswith ticker ".TO" = false → asked yf log ticker = [ticker]).
Proof.
  intros Hshape. destruct (asked_cases yf log ticker) as (Hor & Hiff & Hno).
  destruct (shaped_alternate ticker Hshape) as [<- | Hend]; [done|].
  rewrite (Hno Hend). split_and!; [by left| |done].
  split; [done|]. intros [? _]. congruence.
Qed.

Lemma segments_shaped (tickers : list string) (segments : list (list string)) :
  Forall aggregator_shaped tickers →
  Forall2 (λ ticker made,
             made = [ticker]
             ∨ endswith ticker ".TO" = true
               ∧ made = [ticker; alternate ticker])
    tickers segments →
  Forall2 (λ ticker made,
             made = [ticker]
             ∨ endswith ticker ".TO" = true
               ∧ made = [ticker; suffix_replaced ticker])
    tickers segments.
Proof.
  intros Hshape Hall. induction Hall as [|t made tickers segments Ht _ IH].
  - constructor.
  - apply Forall_cons in Hshape as [Hs Hshape]. constructor; [|by apply IH].
    destruct Ht as [-> | [Hend ->]]; [by left|]. right. split; [done|].
    destruct (shaped_alternate t Hs) as [-> | ?]; [done|congruence].
Qed.

(** C2.  For each ticker the remote source is asked once for the ticker
    itself and, only when the ticker ends with [.TO] and the first attempt
    appended no row, once more for the ticker with its [.TO] suffix
    replaced by [.NE]; a ticker without that ending is asked for exactly
    once and nothing is asked a third time.  The tickers are those of the
    shape the aggregator builds, which is the shape of every ticker of the
    master list the program passes to the loop; the requests of the
    program's run are the concatenation of these per-ticker segments.
    The bound of two requests and the condition of the second hold for
    any string whatsoever, the second symbol being what the code's
    [replace] makes of it. *)
Theorem attempts_per_ticker yf
    (requests_get : string → result string)
    (read_html : string → result (list table)) :
  (∀ (total i : nat) (ticker : string) (st : state),
     aggregator_shaped ticker →
     ∃ made : list string,
       requests (process_ticker yf total i ticker st) = requests st ++ made
       ∧ (made = [ticker] ∨ made = [ticker; suffix_replaced ticker])
       ∧ (made = [ticker; suffix_replaced ticker]
          ↔ endswith ticker ".TO" = true
            ∧ try_attempt yf (requests st) ticker = None)
       ∧ (endswith ticker ".TO" = false → made = [ticker])
       ∧ (length made ≤ 2)%nat)
  ∧ (∀ ticker, ticker ∈ master_list requests_get read_html →
               aggregator_shaped ticker)
  ∧ (∃ segments : list (list string),
       requests (fetch_analyst_data yf (master_list requests_get read_html))
       = concat segments
       ∧ Forall2 (λ ticker made,
                    made = [ticker]
                    ∨ endswith ticker ".TO" = true
                      ∧ made = [ticker; suffix_replaced ticker])
           (master_list requests_get read_html) segments)
  ∧ (∀ (total i : nat) (ticker : string) (st : state),
       ∃ made : list string,
         requests (process_ticker yf total i ticker st) = requests st ++ made
         ∧ (made = [ticker] ∨ made = [ticker; alternate ticker])
         ∧ (made = [ticker; alternate ticker]
            ↔ endswith ticker ".TO" = true
              ∧ try_attempt yf (requests st) ticker = None)
         ∧ (endswith ticker ".TO" = false → made = [ticker])
         ∧ (length made ≤ 2)%nat)
  ∧ (∀ tickers : list string,
       ∃ segments : list (list string),
         requests (fetch_analyst_data yf tickers) = concat segments
         ∧ Forall2 (λ ticker made,
                      made = [ticker]
                      ∨ endswith ticker ".TO" = true
                        ∧ made = [ticker; alternate ticker])
             tickers segments).
Proof.
  assert (∀ tickers : list string,
            ∃ segments : list (list string),
              requests (fetch_analyst_data yf tickers) = concat segments
              ∧ Forall2 (λ ticker made,
                           made = [ticker]
                           ∨ endswith ticker ".TO" = true
                             ∧ made = [ticker; alternate ticker])
                  tickers segments) as Hrun.
  { intros tickers. unfold fetch_analyst_data.
    destruct (ticker_loop_requests yf (length tickers) 0 tickers
                (initial_state (length tickers))) as (segments & H & Hall).
    exists segments. by split. }
  split_and!.
  - intros total i ticker st Hshape. exists (asked yf (requests st) ticker).
    destruct (asked_shaped yf (requests st) ticker Hshape)
      as (Hor & Hiff & Hno).
    split_and!; try done.
    + apply process_ticker_requests.
    + destruct Hor as [-> | ->]; simpl; lia.
  - apply master_list_shaped.
  - destruct (Hrun (master_list requests_get read_html))
      as (segments & Hreq & Hall).
    exists segments. split; [done|].
    apply segments_shaped; [|done].
    apply Forall_forall, master_list_shaped.
  - intros total i ticker st. exists (asked yf (requests st) ticker).
    destruct (asked_cases yf (requests st) ticker) as (Hor & Hiff & Hno).
    split_and!; try done.
    + apply process_ticker_requests.
    + destruct Hor as [-> | ->]; simpl; lia.
  - exact Hrun.
Qed.

(** Outside the aggregator's shape the code's [replace] and a swap of the
    suffix differ: [replace] rewrites every [.TO] of the string.  No such
    string is a ticker of the master list. *)
Example alternate_replaces_every_occurrence :
  alternate "A.TOB.TO" = "A.NEB.NE"
  ∧ suffix_replaced "A.TOB.TO" = "A.TOB.NE"
  ∧ requests (fetch_analyst_data Samples.unreachable ["A.TOB.TO"])
    = ["A.TOB.TO"; "A.NEB.NE"].
Proof. by split_and!. Qed.

(** ** Failures and rows *)

Section RowFacts.
Variable yf : list string -> string -> Stock.

Lemma try_attempt_swallows (log : list string) (cur : string) (e : exn) :
  attempt_body (yf log cur) cur = Raise e → try_attempt yf log cur = None.
Proof. unfold try_attempt. by intros ->. Qed.

Lemma try_attempt_ticker (log : list string) (cur : string) (r : Row) :
  try_attempt yf log cur = Some r → Ticker r = cur.
Proof.
  unfold try_attempt, try_except.
  destruct (attempt_body _ cur) as [[r'|]|e] eqn:H; try done.
  intros [= ->]. apply attempt_body_row in H.
  by destruct H as (d & c & t & _ & _ & _ & _ & _ & Ht & _).
Qed.

Lemma nth_attempt_0 (log : list string) (ticker : string) :
  nth_attempt yf log ticker 0 = try_attempt yf log ticker.
Proof. unfold nth_attempt. simpl. by rewrite app_nil_r. Qed.

Lemma nth_attempt_1 (log : list string) (ticker : string) :
  nth_attempt yf log ticker 1
  = if endswith ticker ".TO"
    then try_attempt yf (log ++ [ticker]) (alternate ticker)
    else None.
Proof.
  unfold nth_attempt, attempts_of. by destruct (endswith ticker ".TO").
Qed.

Lemma nth_attempt_late (log : list string) (ticker : string) (k : nat) :
  (2 ≤ k)%nat → nth_attempt yf log ticker k = None.
Proof.
  intros Hk. unfold nth_attempt.
  rewrite (lookup_ge_None_2 (attempts_of ticker) k); [done|].
  unfold attempts_of. destruct (endswith ticker ".TO"); simpl; lia.
Qed.

(** One ticker, whatever its attempts do, leaves one row when an attempt
    succeeds and none when all fail. *)
Lemma process_ticker_rows (total i : nat) (ticker : string) (st : state) :
  let st' := process_ticker yf total i ticker st in
  (∀ r, first_success yf (requests st) ticker r →
        data_list st' = data_list st ++ [r]
        ∧ stdout st' = stdout st ++ [Succeeded (i + 1) total (Ticker r)])
  ∧ (all_attempts_fail yf (requests st) ticker →
     data_list st' = data_list st
     ∧ stdout st' = stdout st ++ [Failed (i + 1) total ticker])
  ∧ ((∃ r, first_success yf (requests st) ticker r)
     ∨ all_attempts_fail yf (requests st) ticker).
Proof.
  intros st'. subst st'. rewrite process_ticker_eq.
  pose proof (nth_attempt_0 (requests st) ticker) as H0.
  pose proof (nth_attempt_1 (requests st) ticker) as H1.
  destruct (try_attempt yf (requests st) ticker) as [r0|] eqn:Hfirst.
  - pose proof (try_attempt_ticker _ _ _ Hfirst) as Ht0.
    split_and!.
    + intros r (k & Hk & Hearlier). destruct k as [|k].
      * rewrite H0 in Hk. injection Hk as <-. by rewrite Ht0.
      * specialize (Hearlier 0%nat ltac:(lia)). congruence.
    + intros Hfail. specialize (Hfail 0%nat). congruence.
    + left. exists r0, 0%nat. split; [done|]. intros j Hj. lia.
  - destruct (endswith ticker ".TO").
    + destruct (try_attempt yf (requests st ++ [ticker]) (alternate ticker))
        as [r1|] eqn:Hsecond.
      * pose proof (try_attempt_ticker _ _ _ Hsecond) as Ht1.
        split_and!.
        -- intros r (k & Hk & Hearlier).
           destruct k as [|[|k]]; [congruence| |].
           ++ rewrite H1 in Hk. injection Hk as <-. by rewrite Ht1.
           ++ rewrite nth_attempt_late in Hk by lia. done.
        -- intros Hfail. specialize (Hfail 1%nat). congruence.
        -- left. exists r1, 1%nat. split; [done|].
           intros j Hj. by replace j with 0%nat by lia.
      * split_and!.
        -- intros r (k & Hk & _).
           destruct k as [|[|k]]; [congruence..|].
           rewrite nth_attempt_late in Hk by lia. done.
        -- done.
        -- right. intros [|[|k]]; [done..|]. apply nth_attempt_late. lia.
    + split_and!.
      * intros r (k & Hk & _).
        destruct k as [|[|k]]; [congruence..|].
        rewrite nth_attempt_late in Hk by lia. done.
      * done.
      * right. intros [|[|k]]; [done..|]. apply nth_attempt_late. lia.
Qed.

Lemma process_ticker_grows (total i : nat) (ticker : string) (st : state) :
  ∃ rows ln,
    data_list (process_ticker yf total i ticker st) = data_list st ++ rows
    ∧ stdout (process_ticker yf total i ticker st) = stdout st ++ [ln]
    ∧ line_about ticker ln
    ∧ map Ticker rows = succeeded_symbols [ln].
Proof.
  rewrite process_ticker_eq. unfold attempts_of.
  destruct (try_attempt yf (requests st) ticker) as [r0|] eqn:Hfirst.
  { exists [r0], (Succeeded (i + 1) total ticker).
    apply try_attempt_ticker in Hfirst.
    split_and!; [done..| |simpl; by rewrite Hfirst].
    unfold line_about, attempts_of. set_solver. }
  destruct (endswith ticker ".TO") eqn:Hto.
  - destruct (try_attempt yf (requests st ++ [ticker]) (alternate ticker))
      as [r1|] eqn:Hsecond.
    + exists [r1], (Succeeded (i + 1) total (alternate ticker)).
      apply try_attempt_ticker in Hsecond.
      split_and!; [done..| |simpl; by rewrite Hsecond].
      unfold line_about, attempts_of. rewrite Hto. set_solver.
    + exists [], (Failed (i + 1) total ticker). by rewrite app_nil_r.
  - exists [], (Failed (i + 1) total ticker). by rewrite app_nil_r.
Qed.

Lemma succeeded_symbols_app (l1 l2 : list line) :
  succeeded_symbols (l1 ++ l2) = succeeded_symbols l1 ++ succeeded_symbols l2.
Proof. apply omap_app. Qed.

Lemma succeeded_symbols_length (l : list line) :
  (length (succeeded_symbols l) ≤ length l)%nat.
Proof.
  induction l as [|[] l IH]; simpl; lia.
Qed.

(** The loop only ever appends: one console line per ticker, and one row
    for each success line. *)
Lemma ticker_loop_grows (total i : nat) (tickers : list string) (st : state) :
  ∃ rows lines,
    data_list (ticker_loop yf total i tickers st) = data_list st ++ rows
    ∧ stdout (ticker_loop yf total i tickers st) = stdout st ++ lines
    ∧ Forall2 line_about tickers lines
    ∧ map Ticker rows = succeeded_symbols lines.
Proof.
  revert i st. induction tickers as [|t tickers IH]; intros i st.
  - exists [], []. rewrite !app_nil_r. by split_and!.
  - simpl.
    destruct (process_ticker_grows total i t st)
      as (rows1 & ln & Hd1 & Ho1 & Hln & Hsym1).
    destruct (IH (S i) (process_ticker yf total i t st))
      as (rows2 & lines2 & Hd2 & Ho2 & Hall & Hsym2).
    exists (rows1 ++ rows2), (ln :: lines2).
    rewrite Hd2, Ho2, Hd1, Ho1, <- !(assoc_L (++)).
    split_and!; [done..| |].
    + by constructor.
    + rewrite map_app, Hsym1, Hsym2.
      by rewrite <- succeeded_symbols_app.
Qed.

Lemma try_attempt_answers (log : list string) (cur : string) :
  answers (yf log cur) →
  ∃ r, try_attempt yf log cur = Some r ∧ row_from (yf log cur) cur r.
Proof.
  intros Hans.
  destruct (attempt_body_answers _ cur Hans)
    as (r & d & c & t & Hbody & Hd & Hc & Ht & Hsym & Hp & Htp).
  exists r. split; [unfold try_attempt; by rewrite Hbody|].
  by exists d, c, t.
Qed.

Lemma try_attempt_no_answer (log : list string) (cur : string) :
  ¬ answers (yf log cur) → try_attempt yf log cur = None.
Proof.
  intros Hno. unfold try_attempt, try_except.
  destruct (attempt_body _ cur) as [[r|]|e] eqn:Hbody; [|done..].
  destruct Hno. by eapply attempt_body_some_answers.
Qed.

Lemma answers_or_not (log : list string) (cur : string) :
  answers (yf log cur) ∨ ¬ answers (yf log cur).
Proof.
  unfold try_attempt, try_except.
  destruct (attempt_body (yf log cur) cur) as [[r|]|e] eqn:Hbody.
  - left. by eapply attempt_body_some_answers.
  - right. intros Hans.
    destruct (attempt_body_answers _ cur Hans) as (r & ? & ? & ? & Hr & _).
    congruence.
  - right. intros Hans.
    destruct (attempt_body_answers _ cur Hans) as (r & ? & ? & ? & Hr & _).
    congruence.
Qed.

(** One ticker, by what the source gives for its symbols. *)
Lemma process_ticker_answers (total i : nat) (ticker : string) (st : state) :
  let st' := process_ticker yf total i ticker st in
  let first := yf (requests st) ticker in
  let second := yf (requests st ++ [ticker]) (alternate ticker) in
  (answers first →
   ∃ r, data_list st' = data_list st ++ [r]
        ∧ stdout st' = stdout st ++ [Succeeded (i + 1) total ticker]
        ∧ row_from first ticker r)
  ∧ (¬ answers first → endswith ticker ".TO" = true → answers second →
     ∃ r, data_list st' = data_list st ++ [r]
          ∧ stdout st' = stdout st
                         ++ [Succeeded (i + 1) total (alternate ticker)]
          ∧ row_from second (alternate ticker) r)
  ∧ (¬ answers first →
     endswith ticker ".TO" = false ∨ ¬ answers second →
     data_list st' = data_list st
     ∧ stdout st' = stdout st ++ [Failed (i + 1) total ticker]).
Proof.
  intros st' first second. subst st' first second.
  rewrite process_ticker_eq. split_and!.
  - intros (r & -> & Hrow)%try_attempt_answers. by exists r.
  - intros ->%try_attempt_no_answer ->
      (r & -> & Hrow)%try_attempt_answers.
    by exists r.
  - intros ->%try_attempt_no_answer [-> | ->%try_attempt_no_answer];
      [done|]. by destruct (endswith ticker ".TO").
Qed.

End RowFacts.

(** C3.  For every ticker of the input list, whatever the remote source
    does.  The loop goes on with the tickers after it from the state the
    ticker left, also when reading [info] raised for each of its symbols:
    the exception is swallowed, no row is added and the failure line is
    printed.  A ticker the source answers for adds exactly one row, which
    carries the ticker and the prices the source gave; a ticker ending in
    [.TO] that is answered only under its alternate symbol adds exactly
    one row under that symbol; a ticker answered under none of its
    symbols adds no row.  Rows already appended stay, and the finished
    run has printed one report line per ticker, in order, and holds one
    row per success line. *)
Theorem failures_do_not_stop_the_run yf
    (before : list string) (ticker : string) (after : list string) :
  let tickers := before ++ ticker :: after in
  let total := length tickers in
  let st1 := ticker_loop yf total 0 before (initial_state total) in
  let st2 := process_ticker yf total (length before) ticker st1 in
  let final := fetch_analyst_data yf tickers in
  let first := yf (requests st1) ticker in
  let second := yf (requests st1 ++ [ticker]) (alternate ticker) in
  final = ticker_loop yf total (S (length before)) after st2
  ∧ (answers first →
     ∃ r, data_list st2 = data_list st1 ++ [r] ∧ row_from first ticker r)
  ∧ (¬ answers first → endswith ticker ".TO" = true → answers second →
     ∃ r, data_list st2 = data_list st1 ++ [r]
          ∧ row_from second (alternate ticker) r)
  ∧ (¬ answers first →
     endswith ticker ".TO" = false ∨ ¬ answers second →
     data_list st2 = data_list st1
     ∧ stdout st2
       = stdout st1 ++ [Failed (length before + 1) total ticker])
  ∧ (∀ e, info first = Raise e →
          endswith ticker ".TO" = false ∨ (∃ e', info second = Raise e') →
          data_list st2 = data_list st1
          ∧ stdout st2
            = stdout st1 ++ [Failed (length before + 1) total ticker])
  ∧ (answers first ∨ ¬ answers first)
  ∧ (answers second ∨ ¬ answers second)
  ∧ (∃ later, data_list final = data_list st2 ++ later)
  ∧ (∃ lines, stdout final = Starting total :: lines
              ∧ Forall2 line_about tickers lines
              ∧ map Ticker (data_list final) = succeeded_symbols lines).
Proof.
  intros tickers total st1 st2 final first second.
  assert (final = ticker_loop yf total (S (length before)) after st2) as Hfinal.
  { subst final st2 st1 total tickers. unfold fetch_analyst_data.
    by rewrite ticker_loop_app. }
  destruct (process_ticker_answers yf total (length before) ticker st1)
    as (Hone & Halt & Hnone).
  fold st2 first second in Hone, Halt, Hnone.
  assert (∀ stock e, info stock = Raise e → ¬ answers stock) as Hraise.
  { intros stock e He (d & ? & ? & Hd & _). congruence. }
  split_and!.
  - done.
  - intros Hans. destruct (Hone Hans) as (r & Hd & _ & Hrow). by exists r.
  - intros Hno Hto Hans.
    destruct (Halt Hno Hto Hans) as (r & Hd & _ & Hrow). by exists r.
  - done.
  - intros e He Hor. apply Hnone; [by eapply Hraise|].
    destruct Hor as [?|[e' He']]; [by left|right; by eapply Hraise].
  - apply answers_or_not.
  - apply answers_or_not.
  - rewrite Hfinal.
    destruct (ticker_loop_grows yf total (S (length before)) after st2)
      as (rows & _ & Hd & _). by exists rows.
  - subst final. unfold fetch_analyst_data. fold tickers. fold total.
    destruct (ticker_loop_grows yf total 0 tickers (initial_state total))
      as (rows & lines & Hd & Ho & Hall & Hsym).
    exists lines. rewrite Hd, Ho. by split_and!.
Qed.

(** ** Every row comes from an attempt *)

Section Provenance.
Variable yf : list string -> string -> Stock.

Lemma made_by_attempt_mono (reqs reqs' : list string) (r : Row) :
  reqs `prefix_of` reqs' →
  made_by_attempt yf reqs r → made_by_attempt yf reqs' r.
Proof.
  intros Hpre (log & Hlog & Hr). exists log. split; [|done].
  by etrans.
Qed.

Lemma process_ticker_provenance (total i : nat) (ticker : string)
    (st : state) :
  Forall (made_by_attempt yf (requests st)) (data_list st) →
  Forall (made_by_attempt yf (requests (process_ticker yf total i ticker st)))
         (data_list (process_ticker yf total i ticker st)).
Proof.
  intros Hinv.
  assert (∀ reqs', requests st `prefix_of` reqs' →
                   Forall (made_by_attempt yf reqs') (data_list st)) as Hold.
  { intros reqs' Hpre. eapply Forall_impl; [exact Hinv|].
    intros r. by apply made_by_attempt_mono. }
  rewrite process_ticker_eq.
  destruct (try_attempt yf (requests st) ticker) as [r0|] eqn:Hfirst.
  { cbn [data_list requests]. apply Forall_app. split.
    - apply Hold. by apply prefix_app_r.
    - apply Forall_singleton. exists (requests st).
      rewrite (try_attempt_ticker _ _ _ _ Hfirst). by split. }
  destruct (endswith ticker ".TO").
  - destruct (try_attempt yf (requests st ++ [ticker]) (alternate ticker))
      as [r1|] eqn:Hsecond; cbn [data_list requests].
    + apply Forall_app. split.
      * apply Hold. rewrite <- (assoc_L (++)). by apply prefix_app_r.
      * apply Forall_singleton. exists (requests st ++ [ticker]).
        rewrite (try_attempt_ticker _ _ _ _ Hsecond). by split.
    + apply Hold. rewrite <- (assoc_L (++)). by apply prefix_app_r.
  - cbn [data_list requests]. apply Hold. by apply prefix_app_r.
Qed.

Lemma ticker_loop_provenance (total i : nat) (tickers : list string)
    (st : state) :
  Forall (made_by_attempt yf (requests st)) (data_list st) →
  Forall (made_by_attempt yf (requests (ticker_loop yf total i tickers st)))
         (data_list (ticker_loop yf total i tickers st)).
Proof.
  revert i st. induction tickers as [|t tickers IH]; intros i st Hinv;
    [done|].
  simpl. apply IH. by apply process_ticker_provenance.
Qed.

Lemma fetch_provenance (tickers : list string) (r : Row) :
  r ∈ data_list (fetch_analyst_data yf tickers) →
  made_by_attempt yf (requests (fetch_analyst_data yf tickers)) r.
Proof.
  intros Hin. unfold fetch_analyst_data in *.
  assert (Forall (made_by_attempt yf
                    (requests (initial_state (length tickers))))
                 (data_list (initial_state (length tickers)))) as H0
    by constructor.
  apply (ticker_loop_provenance (length tickers) 0 tickers) in H0.
  rewrite Forall_forall in H0. by apply H0.
Qed.

(** The fields of a row of the run, read back from the [info] of the
    attempt that appended it. *)
Lemma fetch_row_info (tickers : list string) (r : Row) :
  r ∈ data_list (fetch_analyst_data yf tickers) →
  ∃ log, (log ++ [Ticker r])
           `prefix_of` requests (fetch_analyst_data yf tickers)
         ∧ attempt_body (yf log (Ticker r)) (Ticker r) = Ok (Some r).
Proof.
  intros Hin. destruct (fetch_provenance tickers r Hin) as (log & Hpre & Hr).
  exists log. split; [done|].
  unfold try_attempt, try_except in Hr.
  by destruct (attempt_body _ _) as [[r'|]|e]; simplify_eq.
Qed.

End Provenance.

(** C1.  Every row of the returned frame stems from an attempt whose
    [info] held a current price and a mean target price, both non-zero
    numbers; the row stores them, and its upside is the float expression
    [((targetMeanPrice - currentPrice) / currentPrice) * 100], each
    operation rounded as floats are, passed through [round(., 2)]: the
    float nearest to the two-place decimal that is within half a hundredth
    of that percentage. *)
Theorem upside_is_percentage_difference yf (tickers : list string) (r : Row) :
  r ∈ data_list (fetch_analyst_data yf tickers) →
  ∃ (log : list string) (d : gmap string value) (c t : Q),
    (log ++ [Ticker r]) `prefix_of` requests (fetch_analyst_data yf tickers)
    ∧ info (yf log (Ticker r)) = Ok d
    ∧ d !! "currentPrice" = Some (VNum c)
    ∧ d !! "targetMeanPrice" = Some (VNum t)
    ∧ ¬ (c == 0)%Q ∧ ¬ (t == 0)%Q
    ∧ Price r = VNum c ∧ Target_Price r = VNum t
    ∧ Upside_Potential r = round2 (fl (fl (fl (t - c) / c) * 100))
    ∧ (∃ n : Z,
         Upside_Potential r = fl (n # 100)
         ∧ (Qabs ((n # 100) - fl (fl (fl (t - c) / c) * 100)) <= 1 # 200)%Q).
Proof.
  intros Hin. destruct (fetch_row_info yf tickers r Hin) as (log & Hpre & Hr).
  apply attempt_body_row in Hr
    as (d & c & t & Hd & Hc & Ht & Hc0 & Ht0 & _ & Hp & Htp & Hup & _).
  exists log, d, c, t. split_and!; try done.
  exists (round_half_even (percentage c t * 100)). split; [done|].
  apply two_decimals_close.
Qed.

Example fetch_neo :
  fetch_analyst_data Samples.listed_on_neo ["RY.TO"; "GME"]
  = {| data_list := [Samples.neo_row];
       requests := ["RY.TO"; "RY.NE"; "GME"];
       stdout := [Starting 2; Succeeded 1 2 "RY.NE"; Failed 2 2 "GME"] |}.
Proof. vm_compute. reflexivity. Qed.

Example fetch_odd_price :
  Upside_Potential <$> data_list (fetch_analyst_data Samples.odd_price ["ODD"])
  = [fl (1437 # 100)].
Proof. vm_compute. reflexivity. Qed.

Lemma upside_is_percentage_difference_witness :
  Samples.neo_row
    ∈ data_list (fetch_analyst_data Samples.listed_on_neo ["RY.TO"; "GME"])
  ∧ ∃ (log : list string) (d : gmap string value) (c t : Q),
      (log ++ [Ticker Samples.neo_row])
        `prefix_of` requests
                      (fetch_analyst_data Samples.listed_on_neo ["RY.TO"; "GME"])
      ∧ info (Samples.listed_on_neo log (Ticker Samples.neo_row)) = Ok d
      ∧ d !! "currentPrice" = Some (VNum c)
      ∧ d !! "targetMeanPrice" = Some (VNum t)
      ∧ ¬ (c == 0)%Q ∧ ¬ (t == 0)%Q
      ∧ Price Samples.neo_row = VNum c ∧ Target_Price Samples.neo_row = VNum t
      ∧ Upside_Potential Samples.neo_row
        = round2 (fl (fl (fl (t - c) / c) * 100))
      ∧ (∃ n : Z,
           Upside_Potential Samples.neo_row = fl (n # 100)
           ∧ (Qabs ((n # 100) - fl (fl (fl (t - c) / c) * 100))
              <= 1 # 200)%Q).
Proof.
  assert (Samples.neo_row
            ∈ data_list
                (fetch_analyst_data Samples.listed_on_neo ["RY.TO"; "GME"]))
    as Hin.
  { rewrite fetch_neo. simpl. apply list_elem_of_here. }
  split; [exact Hin|].
  exact (upside_is_percentage_difference Samples.listed_on_neo
           ["RY.TO"; "GME"] Samples.neo_row Hin).
Defined.

(** C9, as the code has it.  In every row the dividend yield is never
    null: it is 0 when the source has no [dividendYield] or a null one, and
    the source's value otherwise.  Both prices are numbers.  The two P/E
    ratios are stored as the source returns them, null when absent.  The
    attributes read with a default (currency, analyst count, rating,
    sector) are null exactly when the source holds the key with a null
    value: the default only replaces a missing key. *)
Theorem dividend_yield_never_null yf (tickers : list string) (r : Row) :
  r ∈ data_list (fetch_analyst_data yf tickers) →
  ∃ (log : list string) (d : gmap string value),
    info (yf log (Ticker r)) = Ok d
    ∧ Dividend_Yield r ≠ VNone
    ∧ (d !! "dividendYield" = None ∨ d !! "dividendYield" = Some VNone →
       Dividend_Yield r = VNum 0)
    ∧ (∀ v, d !! "dividendYield" = Some v → v ≠ VNone → Dividend_Yield r = v)
    ∧ Trailing_PE r = dict_get d "trailingPE"
    ∧ Forward_PE r = dict_get d "forwardPE"
    ∧ (∃ c t : Q, Price r = VNum c ∧ Target_Price r = VNum t)
    ∧ (Currency r = VNone ↔ d !! "currency" = Some VNone)
    ∧ (Num_Analysts r = VNone ↔ d !! "numberOfAnalystOpinions" = Some VNone)
    ∧ (Rating r = VNone ↔ d !! "recommendationKey" = Some VNone)
    ∧ (Sector r = VNone ↔ d !! "sector" = Some VNone).
Proof.
  intros Hin. destruct (fetch_row_info yf tickers r Hin) as (log & _ & Hr).
  apply attempt_body_row in Hr
    as (d & c & t & Hd & _ & _ & _ & _ & _ & Hp & Htp & _ & Hdiv & Htr & Hfw
        & Hcur & Hnum & Hrat & Hsec).
  exists log, d. unfold dict_get_default in *.
  rewrite Hdiv, Hcur, Hnum, Hrat, Hsec.
  split_and!; try done.
  - by destruct (d !! "dividendYield") as [[]|].
  - by intros [-> | ->].
  - intros v -> Hv. by destruct v.
  - by exists c, t.
  - destruct (d !! "currency") as [v|]; simpl; [|done].
    split; [by intros -> | by intros [= ->]].
  - destruct (d !! "numberOfAnalystOpinions") as [v|]; simpl; [|done].
    split; [by intros -> | by intros [= ->]].
  - destruct (d !! "recommendationKey") as [v|]; simpl; [|done].
    split; [by intros -> | by intros [= ->]].
  - destruct (d !! "sector") as [v|]; simpl; [|done].
    split; [by intros -> | by intros [= ->]].
Qed.

Lemma dividend_yield_never_null_witness :
  Samples.neo_row
    ∈ data_list (fetch_analyst_data Samples.listed_on_neo ["RY.TO"; "GME"])
  ∧ Dividend_Yield Samples.neo_row ≠ VNone.
Proof.
  assert (Samples.neo_row
            ∈ data_list
                (fetch_analyst_data Samples.listed_on_neo ["RY.TO"; "GME"]))
    as Hin.
  { rewrite fetch_neo. simpl. apply list_elem_of_here. }
  split; [exact Hin|].
  destruct (dividend_yield_never_null Samples.listed_on_neo
              ["RY.TO"; "GME"] Samples.neo_row Hin) as (log & d & _ & H & _).
  exact H.
Defined.

(** The claim that nothing but the two P/E ratios can be null fails on a
    stock whose sector the source returns as null. *)
Lemma only_pe_nullable_refuted :
  data_list (fetch_analyst_data Samples.listed_on_neo ["RY.TO"])
  = [Samples.neo_row]
  ∧ Sector Samples.neo_row = VNone
  ∧ ¬ (∀ yf (tickers : list string) (r : Row),
         r ∈ data_list (fetch_analyst_data yf tickers) →
         Price r ≠ VNone ∧ Currency r ≠ VNone ∧ Target_Price r ≠ VNone
         ∧ Num_Analysts r ≠ VNone ∧ Rating r ≠ VNone ∧ Sector r ≠ VNone
         ∧ Dividend_Yield r ≠ VNone).
Proof.
  assert (data_list (fetch_analyst_data Samples.listed_on_neo ["RY.TO"])
          = [Samples.neo_row]) as Hrun by (vm_compute; reflexivity).
  split_and!; [done..|].
  intros H.
  destruct (H Samples.listed_on_neo ["RY.TO"] Samples.neo_row)
    as (_ & _ & _ & _ & _ & Hsector & _).
  - rewrite Hrun. apply list_elem_of_here.
  - by apply Hsector.
Qed.

Lemma attempts_per_ticker_witness :
  aggregator_shaped "RY.TO"
  ∧ ∃ made : list string,
      requests (process_ticker Samples.listed_on_neo 2 0 "RY.TO"
                  (initial_state 2))
      = [] ++ made
      ∧ made = ["RY.TO"; "RY.NE"].
Proof.
  assert (aggregator_shaped "RY.TO") as Hshape.
  { right. by exists "RY". }
  split; [exact Hshape|].
  destruct (proj1 (attempts_per_ticker Samples.listed_on_neo
                     Samples.plain_web Samples.read_listing)
              2%nat 0%nat "RY.TO" (initial_state 2) Hshape)
    as (made & Hreq & _ & Htwice & _).
  exists made. split; [exact Hreq|].
  apply (proj2 Htwice). split; reflexivity.
Defined.

Lemma failures_do_not_stop_the_run_witness :
  (¬ answers (Samples.listed_on_neo ["GME"] "RY.TO")
   ∧ endswith "RY.TO" ".TO" = true
   ∧ answers (Samples.listed_on_neo ["GME"; "RY.TO"] "RY.NE"))
  ∧ data_list (process_ticker Samples.listed_on_neo 2 0 "GME" (initial_state 2))
    = []
  ∧ ∃ r, data_list (fetch_analyst_data Samples.listed_on_neo ["GME"; "RY.TO"])
         = [] ++ [r]
         ∧ row_from (Samples.listed_on_neo ["GME"; "RY.TO"] "RY.NE") "RY.NE" r.
Proof.
  assert (¬ answers (Samples.listed_on_neo ["GME"] "RY.TO")) as Hfirst.
  { intros (d & c & t & Hd & _). discriminate Hd. }
  assert (endswith "RY.TO" ".TO" = true) as Hto by reflexivity.
  assert (answers (Samples.listed_on_neo ["GME"; "RY.TO"] "RY.NE")) as Hsecond.
  { exists Samples.quote, 80%Q, 100%Q.
    split_and!; [reflexivity..|discriminate|discriminate|exact I]. }
  split; [by split_and!|]. split; [reflexivity|].
  pose proof (failures_do_not_stop_the_run Samples.listed_on_neo
                ["GME"] "RY.TO" []) as H.
  cbv zeta in H. destruct H as (_ & _ & Halt & _).
  exact (Halt Hfirst Hto Hsecond).
Defined.

End FetchDataProofs.

Module AppProofs.
Import App.

(** ** Filters *)

Lemma ge_floor_lower (v : option Q) (floor floor' : Q) :
  (floor <= floor')%Q → ge_floor v floor' = true → ge_floor v floor = true.
Proof.
  destruct v as [x|]; simpl; [|done].
  rewrite !Qle_bool_iff. intros H1 H2. by eapply Qle_trans.
Qed.

Lemma filter_sublist {A} (f g : A → bool) (l : list A) :
  (∀ x, f x = true → g x = true) →
  sublist (List.filter f l) (List.filter g l).
Proof.
  intros Himp. induction l as [|x l IH]; simpl; [done|].
  destruct (f x) eqn:Hf.
  - rewrite (Himp x Hf). by constructor.
  - destruct (g x); [by constructor|done].
Qed.

(** C5.  With the sector and rating selections unchanged, raising any of
    the three floors keeps only rows that were already shown: the new
    result is a sub-list of the old one and cannot be longer. *)
Theorem floors_monotonic (c c' : Controls) (df : DataFrame) :
  selected_sectors c' = selected_sectors c →
  rating_filter c' = rating_filter c →
  (min_analysts c ≤ min_analysts c')%Z →
  (min_upside c <= min_upside c')%Q →
  (min_div c <= min_div c')%Q →
  sublist (filtered_df c' df) (filtered_df c df)
  ∧ (∀ r, r ∈ filtered_df c' df → r ∈ filtered_df c df)
  ∧ (length (filtered_df c' df) ≤ length (filtered_df c df))%nat.
Proof.
  intros Hsec Hrat Han Hup Hdiv.
  assert (sublist (filtered_df c' df) (filtered_df c df)) as Hsub.
  { apply filter_sublist. intros r. unfold mask. rewrite Hsec, Hrat.
    rewrite !andb_true_iff. intros [[[[H1 H2] H3] H4] H5].
    split_and!; try done.
    - eapply ge_floor_lower; [|exact H1]. by rewrite <- Zle_Qle.
    - by eapply ge_floor_lower.
    - by eapply ge_floor_lower. }
  split_and!; [done| |].
  - intros r Hr. by eapply elem_of_sublist.
  - by apply sublist_length.
Qed.

Lemma floors_monotonic_witness :
  (min_upside (Samples.wide_open by_Upside_Potential)
   <= min_upside Samples.raised_upside)%Q
  ∧ filtered_df Samples.raised_upside [Samples.bank; Samples.miner]
    = [Samples.bank]
  ∧ filtered_df (Samples.wide_open by_Upside_Potential)
      [Samples.bank; Samples.miner]
    = [Samples.bank; Samples.miner]
  ∧ sublist (filtered_df Samples.raised_upside [Samples.bank; Samples.miner])
      (filtered_df (Samples.wide_open by_Upside_Potential)
         [Samples.bank; Samples.miner]).
Proof.
  assert (min_upside (Samples.wide_open by_Upside_Potential)
          <= min_upside Samples.raised_upside)%Q as Hup.
  { apply Qle_bool_imp_le. reflexivity. }
  split_and!; [exact Hup|vm_compute; reflexivity..|].
  apply (floors_monotonic (Samples.wide_open by_Upside_Potential)
           Samples.raised_upside [Samples.bank; Samples.miner]).
  - reflexivity.
  - reflexivity.
  - simpl. lia.
  - exact Hup.
  - apply Qle_bool_imp_le. reflexivity.
Defined.

(** ** Sorting *)

Lemma key_leb_total (asc : bool) (a b : option Q) :
  key_leb asc a b = true ∨ key_leb asc b a = true.
Proof.
  destruct a as [x|], b as [y|]; simpl; auto.
  destruct (Qlt_le_dec x y) as [H|H].
  - apply Qlt_le_weak in H. apply Qle_bool_iff in H.
    destruct asc; auto.
  - apply Qle_bool_iff in H. destruct asc; auto.
Qed.

Lemma key_leb_trans (asc : bool) (a b c : option Q) :
  key_leb asc a b = true → key_leb asc b c = true → key_leb asc a c = true.
Proof.
  destruct a as [x|], b as [y|], c as [z|]; simpl; try done.
  destruct asc; rewrite !Qle_bool_iff; intros; by eapply Qle_trans.
Qed.

#[local] Instance row_before_total key asc : Total (row_before key asc).
Proof. intros r1 r2. apply key_leb_total. Qed.

#[local] Instance row_before_trans key asc : Transitive (row_before key asc).
Proof. intros r1 r2 r3. apply key_leb_trans. Qed.

Lemma row_before_descending key (r1 r2 : CsvRow) :
  row_before key false r1 r2 → descending_by key r1 r2.
Proof.
  unfold row_before, descending_by, key_leb.
  destruct (key r1), (key r2); try done. by rewrite Qle_bool_iff.
Qed.

Lemma row_before_ascending key (r1 r2 : CsvRow) :
  row_before key true r1 r2 → ascending_by key r1 r2.
Proof.
  unfold row_before, ascending_by, key_leb.
  destruct (key r1), (key r2); try done. by rewrite Qle_bool_iff.
Qed.

Lemma StronglySorted_impl {A} (R S : relation A) (l : list A) :
  (∀ x y, R x y → S x y) → StronglySorted R l → StronglySorted S l.
Proof.
  intros Himp. induction 1 as [|x l Hl IH Hx]; constructor; [done|].
  eapply Forall_impl; [exact Hx|]. intros y. apply Himp.
Qed.

Lemma sort_values_sorted (df : DataFrame) key (asc : bool) :
  StronglySorted (row_before key asc) (sort_values df key asc)
  ∧ sort_values df key asc ≡ₚ df.
Proof.
  unfold sort_values. split.
  - apply StronglySorted_merge_sort; apply _.
  - apply merge_sort_Permutation.
Qed.

(** C6.  The direction passed to the sort is descending for the upside and
    ascending for either P/E; accordingly the displayed rows, a
    rearrangement of the filtered ones, come highest upside first,
    respectively lowest P/E first, rows without a value last. *)
Theorem sort_direction_flip (c : Controls) (df : DataFrame) :
  ascending by_Upside_Potential = false
  ∧ ascending by_Forward_PE = true
  ∧ ascending by_Trailing_PE = true
  ∧ sorted_df c df ≡ₚ filtered_df c df
  ∧ (sort_col c = by_Upside_Potential →
     StronglySorted (descending_by Upside_Potential) (sorted_df c df))
  ∧ (sort_col c = by_Forward_PE →
     StronglySorted (ascending_by Forward_PE) (sorted_df c df))
  ∧ (sort_col c = by_Trailing_PE →
     StronglySorted (ascending_by Trailing_PE) (sorted_df c df)).
Proof.
  unfold sorted_df. split_and!; try reflexivity.
  - apply sort_values_sorted.
  - intros ->. eapply StronglySorted_impl; [apply row_before_descending|].
    apply sort_values_sorted.
  - intros ->. eapply StronglySorted_impl; [apply row_before_ascending|].
    apply sort_values_sorted.
  - intros ->. eapply StronglySorted_impl; [apply row_before_ascending|].
    apply sort_values_sorted.
Qed.

Example sorted_by_upside :
  sorted_df (Samples.wide_open by_Upside_Potential)
    [Samples.miner; Samples.bank]
  = [Samples.bank; Samples.miner].
Proof. vm_compute. reflexivity. Qed.

Example sorted_by_forward_pe :
  sorted_df (Samples.wide_open by_Forward_PE) [Samples.miner; Samples.bank]
  = [Samples.bank; Samples.miner].
Proof. vm_compute. reflexivity. Qed.

Example sorted_by_trailing_pe :
  sorted_df (Samples.wide_open by_Trailing_PE) [Samples.miner; Samples.bank]
  = [Samples.bank; Samples.miner].
Proof. vm_compute. reflexivity. Qed.

Lemma sort_direction_flip_witness :
  sort_col (Samples.wide_open by_Upside_Potential) = by_Upside_Potential
  ∧ StronglySorted (descending_by Upside_Potential)
      (sorted_df (Samples.wide_open by_Upside_Potential)
         [Samples.miner; Samples.bank]).
Proof.
  split; [reflexivity|].
  apply (sort_direction_flip (Samples.wide_open by_Upside_Potential)
           [Samples.miner; Samples.bank]).
  reflexivity.
Defined.

(** ** Loading *)

Lemma load_data_missing : load_data None = Ok None.
Proof. reflexivity. Qed.

(** [load_data] lets no [FileNotFoundError] through. *)
Lemma load_data_no_file_error (file : file_state) :
  load_data file ≠ Raise FileNotFoundError.
Proof.
  unfold load_data. destruct (read_csv file) as [df|[]]; discriminate.
Qed.






End AppProofs.

(** * Further properties of fetch_data.py *)

Module FetchDataMore.
Import FetchData FetchDataProofs.

(** ** The cleaning loop of the TSX scraper *)

Lemma substring_all (s : string) :
  String.substring 0 (String.length s) s = s.
Proof. induction s as [|c s IH]; simpl; [done|]. by rewrite IH. Qed.

Lemma substring_suffix (base s : string) :
  String.substring (String.length base) (String.length s) (base +:+ s) = s.
Proof.
  induction base as [|c base IH]; simpl; [apply substring_all|done].
Qed.

Lemma endswith_append (base s : string) : endswith (base +:+ s) s = true.
Proof.
  unfold endswith. rewrite length_append_suffix.
  replace (String.length base + String.length s - String.length s)%nat
    with (String.length base) by lia.
  rewrite substring_suffix, String.eqb_refl, andb_true_r.
  apply Nat.leb_le. lia.
Qed.

(** X1.  The test [if not t.endswith('.TO')] of the cleaning loop never fails:
    the dots were replaced by dashes just before, so the suffix is always
    appended, and a cleaned ticker is a dot-free symbol followed by
    [.TO]. *)
Theorem clean_ticker_always_appends (ticker : cell) :
  clean_ticker ticker
  = str_replace (strip (cell_str ticker)) "." "-" +:+ ".TO"
  ∧ has_dot (str_replace (strip (cell_str ticker)) "." "-") = false
  ∧ endswith (clean_ticker ticker) ".TO" = true
  ∧ (3 ≤ String.length (clean_ticker ticker))%nat.
Proof.
  destruct (clean_ticker_alternate ticker) as (base & Hbase & Heq & _).
  assert (clean_ticker ticker
          = str_replace (strip (cell_str ticker)) "." "-" +:+ ".TO") as Hct.
  { unfold clean_ticker, str_replace.
    by rewrite (dotless_not_to _ (replace_dot_dotless _)). }
  split_and!; [done|exact (replace_dot_dotless _)| |].
  - rewrite Hct. apply endswith_append.
  - rewrite Hct, length_append_suffix. simpl. lia.
Qed.

Example clean_ticker_listed_with_suffix :
  clean_ticker (Some "RY.TO") = "RY-TO.TO"
  ∧ clean_ticker None = "nan.TO"
  ∧ clean_ticker (Some "  ") = ".TO".
Proof. by split_and!. Qed.

(** ** What the scrapers return *)

Section ScraperResults.
Variable requests_get : string -> result string.
Variable read_html : string -> result (list table).

Lemma comprehension_texts (texts : list string) :
  comprehension (λ t, cell_replace t "." "-") (Some <$> texts)
  = Ok ((λ s, str_replace s "." "-") <$> texts).
Proof.
  induction texts as [|s texts IH]; [done|].
  cbn [fmap list_fmap comprehension cell_replace rbind].
  change (list_fmap string cell Some texts) with (Some <$> texts).
  by rewrite IH.
Qed.

Lemma comprehension_nan (cells : list cell) :
  None ∈ cells →
  ∃ e, comprehension (λ t, cell_replace t "." "-") cells = Raise e.
Proof.
  induction cells as [|c cells IH]; [by intros ?%elem_of_nil|].
  intros [<- | Hin]%elem_of_cons; [by exists AttributeError|].
  destruct (IH Hin) as [e He]. simpl. rewrite He.
  destruct c; simpl; by eauto.
Qed.

Lemma column_has (df : table) (name : string) (cells : list cell) :
  column df name = Ok cells → has_column df name = true.
Proof.
  unfold column, has_column.
  destruct (List.find _ df) as [c|] eqn:Hf; [|done]. intros _.
  apply find_some in Hf as [Hin Heq]. apply existsb_exists. eauto.
Qed.

(** X2.  The S&P 500 list is all or nothing: with a text in every cell of the
    [Symbol] column of the first table it has one ticker per cell, dots
    turned into dashes; a single missing cell empties the whole list. *)
Theorem sp500_all_or_nothing (html : string) (df : table)
    (others : list table) (cells : list cell) :
  requests_get sp500_url = Ok html →
  read_html html = Ok (df :: others) →
  column df "Symbol" = Ok cells →
  (∀ texts, cells = Some <$> texts →
            get_sp500_tickers requests_get read_html
            = (λ s, str_replace s "." "-") <$> texts)
  ∧ (None ∈ cells → get_sp500_tickers requests_get read_html = []).
Proof.
  intros Hget Hparse Hcol. unfold get_sp500_tickers, sp500_body.
  rewrite Hget. cbn [rbind]. rewrite Hparse. cbn [rbind py_index lookup].
  simpl. rewrite Hcol. cbn [rbind]. split.
  - intros texts ->. by rewrite comprehension_texts.
  - intros [e He]%comprehension_nan. by rewrite He.
Qed.

Lemma find_skips {A} (f : A → bool) (pre : list A) (x : A) (post : list A) :
  Forall (λ y, f y = false) pre → f x = true →
  List.find f (pre ++ x :: post) = Some x.
Proof.
  intros Hpre Hx. induction Hpre as [|y pre Hy _ IH]; simpl.
  - by rewrite Hx.
  - by rewrite Hy.
Qed.

(** What both scrapers make of the column they read. *)
Lemma two_name_scraper (first second : string) (tables pre post : list table)
    (df : table) (cells : list cell) :
  tables = pre ++ df :: post →
  Forall (λ t, has_column t first || has_column t second = false) pre →
  column df (if has_column df first then first else second) = Ok cells →
  match List.find (λ df, has_column df first || has_column df second)
          tables with
  | None => Ok []
  | Some target_df =>
      cells <-' column target_df
                  (if has_column target_df first then first else second);
      comprehension (λ t, cell_replace t "." "-") cells
  end = comprehension (λ t, cell_replace t "." "-") cells.
Proof.
  intros -> Hpre Hcol.
  rewrite (find_skips _ pre df post); [by rewrite Hcol|done|].
  apply column_has in Hcol.
  destruct (has_column df first); [done|]. by rewrite Hcol.
Qed.

(** X3.  The Nasdaq-100 and Russell 1000 scrapers read the first table of
    their page that has a [Ticker] or a [Symbol] column, skipping the
    tables before it, whether that table has one of the two columns or
    both.  The first reads its [Ticker] column when it has one and its
    [Symbol] column otherwise; the second reads [Symbol] when it has one
    and [Ticker] otherwise.  With a text in every cell the result has one
    ticker per cell, dots turned into dashes; a single missing cell
    empties the whole list. *)
Theorem nasdaq_russell_column_choice
    (html1 : string) (pre1 : list table) (df1 : table) (post1 : list table)
    (cells1 : list cell)
    (html2 : string) (pre2 : list table) (df2 : table) (post2 : list table)
    (cells2 : list cell) :
  (requests_get nasdaq100_url = Ok html1 →
   read_html html1 = Ok (pre1 ++ df1 :: post1) →
   Forall (λ t, has_column t "Ticker" || has_column t "Symbol" = false) pre1 →
   column df1 (if has_column df1 "Ticker" then "Ticker" else "Symbol")
   = Ok cells1 →
   (∀ texts, cells1 = Some <$> texts →
             get_nasdaq100_tickers requests_get read_html
             = (λ s, str_replace s "." "-") <$> texts)
   ∧ (None ∈ cells1 → get_nasdaq100_tickers requests_get read_html = []))
  ∧ (requests_get russell1000_url = Ok html2 →
     read_html html2 = Ok (pre2 ++ df2 :: post2) →
     Forall (λ t, has_column t "Symbol" || has_column t "Ticker" = false)
       pre2 →
     column df2 (if has_column df2 "Symbol" then "Symbol" else "Ticker")
     = Ok cells2 →
     (∀ texts, cells2 = Some <$> texts →
               get_russell1000_tickers requests_get read_html
               = (λ s, str_replace s "." "-") <$> texts)
     ∧ (None ∈ cells2 → get_russell1000_tickers requests_get read_html = [])).
Proof.
  split.
  - intros Hget Hparse Hpre Hcol.
    unfold get_nasdaq100_tickers, nasdaq100_body.
    rewrite Hget. cbn [rbind]. rewrite Hparse. cbn [rbind].
    rewrite (two_name_scraper "Ticker" "Symbol" _ pre1 post1 df1 cells1);
      [|done..].
    split.
    + intros texts ->. by rewrite comprehension_texts.
    + intros [e He]%comprehension_nan. by rewrite He.
  - intros Hget Hparse Hpre Hcol.
    unfold get_russell1000_tickers, russell1000_body.
    rewrite Hget. cbn [rbind]. rewrite Hparse. cbn [rbind].
    rewrite (two_name_scraper "Symbol" "Ticker" _ pre2 post2 df2 cells2);
      [|done..].
    split.
    + intros texts ->. by rewrite comprehension_texts.
    + intros [e He]%comprehension_nan. by rewrite He.
Qed.

End ScraperResults.

Lemma sp500_all_or_nothing_witness :
  Samples.plain_web sp500_url = Ok "<html></html>"
  ∧ get_sp500_tickers Samples.plain_web Samples.read_listing
    = ["BRK-B"; "AAPL"].
Proof.
  split; [reflexivity|].
  refine (proj1 (sp500_all_or_nothing Samples.plain_web Samples.read_listing
                   "<html></html>" _ _ [Some "BRK.B"; Some "AAPL"] _ _ _)
            ["BRK.B"; "AAPL"] _); reflexivity.
Defined.

Lemma nasdaq_russell_column_choice_witness :
  (Forall (λ t, has_column t "Ticker" || has_column t "Symbol" = false)
     [ [("Year", [Some "2020"])] ]
   ∧ get_nasdaq100_tickers Samples.plain_web Samples.read_constituents
     = ["BF-B"; "MSFT"])
  ∧ (column [("Symbol", [Some "BRK.B"; Some "AAPL"]);
             ("Ticker", [Some "BRKB"; Some "AAPL"])] "Symbol"
     = Ok (Some <$> ["BRK.B"; "AAPL"])
     ∧ get_russell1000_tickers Samples.plain_web Samples.read_listing
       = ["BRK-B"; "AAPL"]).
Proof.
  assert (Forall (λ t, has_column t "Ticker" || has_column t "Symbol" = false)
            [ [("Year", [Some "2020"])] ]) as Hpre.
  { by constructor. }
  destruct (nasdaq_russell_column_choice
              Samples.plain_web Samples.read_constituents
              "<html></html>" [ [("Year", [Some "2020"])] ]
              [("Company", [Some "Brown-Forman"; Some "Microsoft"]);
               ("Symbol", [Some "BF.B"; Some "MSFT"])] []
              (Some <$> ["BF.B"; "MSFT"])
              "<html></html>" [] [] [] []) as [Hnasdaq _].
  destruct (Hnasdaq eq_refl eq_refl Hpre eq_refl) as [Htexts _].
  destruct (nasdaq_russell_column_choice
              Samples.plain_web Samples.read_listing
              "<html></html>" [] [] [] []
              "<html></html>" []
              [("Symbol", [Some "BRK.B"; Some "AAPL"]);
               ("Ticker", [Some "BRKB"; Some "AAPL"])]
              [ [("Year", [Some "2020"])];
                [("Index", [None])];
                [("Ticker", [Some " RY "; Some "TECK.B"; None])] ]
              (Some <$> ["BRK.B"; "AAPL"])) as [_ Hrussell].
  destruct (Hrussell eq_refl eq_refl (Forall_nil_2 _) eq_refl) as [Hsym _].
  split; split; [exact Hpre|exact (Htexts _ eq_refl)|reflexivity
                |exact (Hsym _ eq_refl)].
Defined.

(** X4.  The TSX scraper reads the fourth table only, takes the first of the
    headings [Ticker], [Symbol], [Ticker symbol] that the table has, and
    returns one cleaned ticker per cell of that column: no cell is dropped,
    a missing one included. *)
Theorem tsx_one_ticker_per_cell rg rh (html : string) (tables : list table)
    (df : table) (name : string) (cells : list cell) :
  rg tsx_url = Ok html →
  rh html = Ok tables →
  tables !! 3%nat = Some df →
  List.find (λ name, has_column df name) possible_names = Some name →
  column df name = Ok cells →
  get_tsx_composite_tickers rg rh = clean_ticker <$> cells
  ∧ length (get_tsx_composite_tickers rg rh) = length cells
  ∧ Forall (λ t, endswith t ".TO" = true) (get_tsx_composite_tickers rg rh).
Proof.
  intros Hget Hparse Hdf Hfind Hcol.
  assert (get_tsx_composite_tickers rg rh = clean_ticker <$> cells) as Heq.
  { unfold get_tsx_composite_tickers, tsx_body.
    rewrite Hget. cbn [rbind]. rewrite Hparse. cbn [rbind].
    assert (tsx_guard tables = false) as ->.
    { unfold tsx_guard. apply Nat.ltb_ge. apply lookup_lt_Some in Hdf. lia. }
    unfold py_index. rewrite Hdf. cbn [rbind]. rewrite Hfind.
    assert (String.eqb name "" = false) as ->.
    { apply find_some in Hfind as [Hin _]. unfold possible_names in Hin.
      simpl in Hin. by destruct Hin as [<-|[<-|[<-|[]]]]. }
    by rewrite Hcol. }
  rewrite Heq. split_and!; [done|apply length_fmap|].
  apply Forall_fmap, Forall_true. intros c. simpl.
  destruct (clean_ticker_alternate c) as (base & _ & -> & _).
  apply endswith_append.
Qed.

Lemma tsx_one_ticker_per_cell_witness :
  Samples.listing !! 3%nat = Some [("Ticker", [Some " RY "; Some "TECK.B"; None])]
  ∧ get_tsx_composite_tickers Samples.plain_web Samples.read_listing
    = ["RY.TO"; "TECK-B.TO"; "nan.TO"].
Proof.
  split; [reflexivity|].
  refine (proj1 (tsx_one_ticker_per_cell Samples.plain_web Samples.read_listing
                   "<html></html>" Samples.listing _ "Ticker"
                   [Some " RY "; Some "TECK.B"; None] _ _ _ _ _));
    reflexivity.
Defined.

Lemma us_scraper_dotless rg rh (s : source) :
  s ≠ TSXComposite →
  Forall (λ t, has_dot t = false) (scraper rg rh s).
Proof.
  intros Hs. destruct s; [..|done]; simpl; apply try_except_Forall; intros l.
  - unfold sp500_body.
    destruct (rg sp500_url) as [html|]; [|done]. cbn [rbind].
    destruct (rh html) as [tables|]; [|done]. cbn [rbind].
    destruct (py_index tables 0) as [df|]; [|done]. cbn [rbind].
    destruct (column df "Symbol") as [cells|]; [|done]. cbn [rbind].
    apply comprehension_replace_dotless.
  - unfold nasdaq100_body.
    destruct (rg nasdaq100_url) as [html|]; [|done]. cbn [rbind].
    destruct (rh html) as [tables|]; [|done]. cbn [rbind].
    destruct (List.find _ tables) as [df|]; [|intros [= <-]; constructor].
    destruct (column df _) as [cells|]; [|done]. cbn [rbind].
    apply comprehension_replace_dotless.
  - unfold russell1000_body.
    destruct (rg russell1000_url) as [html|]; [|done]. cbn [rbind].
    destruct (rh html) as [tables|]; [|done]. cbn [rbind].
    destruct (List.find _ tables) as [df|]; [|intros [= <-]; constructor].
    destruct (column df _) as [cells|]; [|done]. cbn [rbind].
    apply comprehension_replace_dotless.
Qed.

(** X5.  No ticker of the three US scrapers contains a dot, so none ends with
    [.TO] and the retrieval loop asks for each of them exactly once. *)
Theorem us_tickers_dot_free rg rh (s : source) (t : string) :
  s ≠ TSXComposite →
  t ∈ scraper rg rh s →
  has_dot t = false ∧ endswith t ".TO" = false ∧ attempts_of t = [t].
Proof.
  intros Hs Hin.
  pose proof (us_scraper_dotless rg rh s Hs) as Hall.
  rewrite Forall_forall in Hall. specialize (Hall t Hin).
  split_and!; [done|by apply dotless_not_to|by apply dotless_attempted_once].
Qed.

Lemma us_tickers_dot_free_witness :
  "BRK-B" ∈ scraper Samples.plain_web Samples.read_listing SP500
  ∧ attempts_of "BRK-B" = ["BRK-B"].
Proof.
  assert ("BRK-B" ∈ scraper Samples.plain_web Samples.read_listing SP500)
    as Hin by (vm_compute; apply list_elem_of_here).
  split; [exact Hin|].
  apply (us_tickers_dot_free Samples.plain_web Samples.read_listing SP500
           "BRK-B"); [discriminate|exact Hin].
Defined.

(** ** The master list *)

Lemma custom_tickers_NoDup : NoDup get_custom_tickers.
Proof. apply (bool_decide_unpack _). by vm_compute. Qed.

(** X6.  The master list has no duplicate, always holds the eighteen custom
    tickers, and is exactly those (in some order) when the four scrapers
    return nothing. *)
Theorem master_list_has_custom rg rh :
  NoDup (master_list rg rh)
  ∧ (∀ t, t ∈ get_custom_tickers → t ∈ master_list rg rh)
  ∧ (18 ≤ length (master_list rg rh))%nat
  ∧ ((∀ s, scraper rg rh s = []) → master_list rg rh ≡ₚ get_custom_tickers).
Proof.
  assert (∀ t, t ∈ get_custom_tickers → t ∈ master_list rg rh) as Hsub.
  { intros t Ht. unfold master_list. rewrite elem_of_dedup, !elem_of_app.
    auto. }
  assert (NoDup (master_list rg rh)) as Hnd.
  { unfold master_list, dedup. apply NoDup_elements. }
  split_and!; [done..| |].
  - change 18%nat with (length get_custom_tickers).
    apply submseteq_length, NoDup_submseteq; [apply custom_tickers_NoDup|done].
  - intros Hnone. apply NoDup_Permutation; [done|apply custom_tickers_NoDup|].
    intros t. unfold master_list.
    rewrite (Hnone SP500 : get_sp500_tickers rg rh = []),
      (Hnone Nasdaq100 : get_nasdaq100_tickers rg rh = []),
      (Hnone Russell1000 : get_russell1000_tickers rg rh = []),
      (Hnone TSXComposite : get_tsx_composite_tickers rg rh = []).
    by rewrite elem_of_dedup.
Qed.

Lemma master_list_has_custom_witness :
  (∀ s, scraper Samples.offline_web Samples.no_tables s = [])
  ∧ master_list Samples.offline_web Samples.no_tables ≡ₚ get_custom_tickers.
Proof.
  assert (∀ s, scraper Samples.offline_web Samples.no_tables s = []) as H
    by (by intros []).
  split; [exact H|].
  by apply (master_list_has_custom Samples.offline_web Samples.no_tables).
Defined.

Lemma master_list_alternate_witness :
  "TECK-B.TO" ∈ master_list Samples.plain_web Samples.read_listing
  ∧ alternate "TECK-B.TO" = suffix_replaced "TECK-B.TO".
Proof.
  assert ("TECK-B.TO" ∈ master_list Samples.plain_web Samples.read_listing)
    as Hin.
  { unfold master_list. rewrite elem_of_dedup, !elem_of_app.
    right. right. right. left. vm_compute.
    apply list_elem_of_further, list_elem_of_here. }
  split; [exact Hin|].
  by apply (master_list_alternate Samples.plain_web Samples.read_listing
              "TECK-B.TO" Hin).
Defined.

(** ** One attempt, both ways *)

(** X8.  An attempt appends a row exactly when the [info] could be fetched,
    holds a current price and a mean target price that are both non-zero
    numbers, and none of the five recommendation counts is NaN.  In every
    other case (exception, missing or zero price, text in place of a
    price, NaN count) it appends nothing. *)
Theorem attempt_appends_iff yf (log : list string) (cur : string) :
  is_Some (try_attempt yf log cur)
  ↔ ∃ (d : gmap string value) (c t : Q),
      info (yf log cur) = Ok d
      ∧ d !! "currentPrice" = Some (VNum c)
      ∧ d !! "targetMeanPrice" = Some (VNum t)
      ∧ ¬ (c == 0)%Q ∧ ¬ (t == 0)%Q
      ∧ counts_are_numbers (analyst_counts (yf log cur)).
Proof.
  unfold try_attempt, try_except. split.
  - intros [r Hr].
    destruct (attempt_body _ cur) as [[r'|]|e] eqn:Hbody; try done.
    pose proof (attempt_body_counts _ _ _ Hbody) as (H1 & H2 & H3 & H4 & H5).
    apply attempt_body_row in Hbody
      as (d & c & t & Hd & Hc & Ht & Hc0 & Ht0 & _).
    exists d, c, t. split_and!; try done.
    unfold counts_are_numbers. split_and!; by eapply py_int_ok_some.
  - intros (d & c & t & Hd & Hc & Ht & Hc0 & Ht0 & Hcounts).
    destruct (attempt_body_appends _ cur d c t Hd Hc Ht Hc0 Ht0 Hcounts)
      as (r & -> & _).
    by eexists.
Qed.

(** ** The recommendation counts of a row *)

Lemma py_int_series (latest : gmap string (option Q)) (key : string) (z : Z) :
  py_int (series_get latest key) = Ok z → z = int_count latest key.
Proof.
  unfold series_get, int_count.
  destruct (latest !! key) as [[q|]|]; simpl; by intros [= <-].
Qed.

(** X9.  The five counts of a row come from the first row of the
    recommendation frame only, truncated to integers, with 0 for a column
    the frame does not have; they are all 0 when reading the frame raises
    or gives [None] or an empty frame. *)
Theorem row_counts yf (tickers : list string) (r : Row) :
  r ∈ data_list (fetch_analyst_data yf tickers) →
  ∃ log : list string,
    (log ++ [Ticker r]) `prefix_of` requests (fetch_analyst_data yf tickers)
    ∧ ((∃ e, recommendations (yf log (Ticker r)) = Raise e)
       ∨ recommendations (yf log (Ticker r)) = Ok None
       ∨ recommendations (yf log (Ticker r)) = Ok (Some []) →
       Strong_Buy r = 0%Z ∧ Buy r = 0%Z ∧ Hold r = 0%Z
       ∧ Sell r = 0%Z ∧ Strong_Sell r = 0%Z)
    ∧ (∀ latest older,
         recommendations (yf log (Ticker r)) = Ok (Some (latest :: older)) →
         Strong_Buy r = int_count latest "strongBuy"
         ∧ Buy r = int_count latest "buy"
         ∧ Hold r = int_count latest "hold"
         ∧ Sell r = int_count latest "sell"
         ∧ Strong_Sell r = int_count latest "strongSell").
Proof.
  intros Hin. destruct (fetch_row_info yf tickers r Hin) as (log & Hpre & Hr).
  exists log. split; [done|].
  apply attempt_body_counts in Hr as (H1 & H2 & H3 & H4 & H5). split.
  - intros Hnone. rewrite (no_recommendations_counts _ Hnone) in *.
    simpl in *. by simplify_eq.
  - intros latest older Hrecs. unfold analyst_counts in *.
    rewrite Hrecs in *. cbn [rbind try_except strong_buy buy hold sell
                               strong_sell] in *.
    split_and!; by apply py_int_series.
Qed.

Lemma row_counts_witness :
  Samples.followed_row "GME"
    ∈ data_list (fetch_analyst_data Samples.followed ["GME"])
  ∧ Strong_Buy (Samples.followed_row "GME") = int_count
      {[ "strongBuy" := Some 4%Q; "buy" := Some (21 # 2)%Q;
         "hold" := Some 6%Q ]} "strongBuy"
  ∧ Buy (Samples.followed_row "GME") = 10%Z
  ∧ Sell (Samples.followed_row "GME") = 0%Z.
Proof.
  assert (Samples.followed_row "GME"
            ∈ data_list (fetch_analyst_data Samples.followed ["GME"])) as Hin
    by (vm_compute; apply list_elem_of_here).
  split; [exact Hin|].
  destruct (row_counts Samples.followed ["GME"] (Samples.followed_row "GME")
              Hin) as (log & _ & _ & H).
  destruct (H _ _ eq_refl) as (H1 & _).
  split_and!; [exact H1|reflexivity..].
Defined.

(** ** The sign of the upside *)

Lemma round_half_even_nonneg (x : Q) :
  (0 <= x)%Q → (0 ≤ round_half_even x)%Z.
Proof.
  intros Hx. unfold round_half_even.
  assert (0 ≤ Qfloor x)%Z as Hf.
  { change 0%Z with (Qfloor 0). by apply Qfloor_resp_le. }
  destruct (Qcompare _ _); [destruct (Z.even _)|..]; lia.
Qed.

Lemma round_half_even_nonpos (x : Q) :
  (x <= 0)%Q → (round_half_even x ≤ 0)%Z.
Proof.
  intros Hx. unfold round_half_even.
  pose proof (Qfloor_le x) as Hlo.
  assert (Qfloor x ≤ 0)%Z as Hf.
  { rewrite Zle_Qle. change (inject_Z 0) with 0%Q. lra. }
  assert ((1 # 2 <= x - inject_Z (Qfloor x))%Q → (Qfloor x + 1 ≤ 0)%Z) as Hup.
  { intros Hd. assert (Qfloor x < 0)%Z; [|lia].
    rewrite Zlt_Qlt. change (inject_Z 0) with 0%Q. lra. }
  destruct (Qcompare_spec (x - inject_Z (Qfloor x)) (1 # 2)) as [He|Hl|Hg].
  - destruct (Z.even _); [lia|]. apply Hup. rewrite He. apply Qle_refl.
  - lia.
  - apply Hup. by apply Qlt_le_weak.
Qed.

Lemma fl_sign (x : Q) :
  ((0 <= x)%Q → (0 <= fl x)%Q) ∧ ((x <= 0)%Q → (fl x <= 0)%Q).
Proof.
  unfold fl. destruct (Qeq_bool x 0); [split; intros; apply Qle_refl|].
  set (q := Z.max (binade x - 52) (-1074)).
  assert (0 < Qpower 2 q)%Q as Hq by (by apply Qpower_0_lt).
  assert (0 < Qpower 2 (- q))%Q as Hq' by (by apply Qpower_0_lt).
  rewrite Qred_correct. split; intros Hx.
  - assert (0 ≤ round_half_even (x * Qpower 2 (- q)))%Z as Hm.
    { apply round_half_even_nonneg. apply Qmult_le_0_compat; lra. }
    rewrite Zle_Qle in Hm. change (inject_Z 0) with 0%Q in Hm.
    apply Qmult_le_0_compat; lra.
  - assert (round_half_even (x * Qpower 2 (- q)) ≤ 0)%Z as Hm.
    { apply round_half_even_nonpos.
      assert (0 <= (- x) * Qpower 2 (- q))%Q
        by (apply Qmult_le_0_compat; lra).
      lra. }
    rewrite Zle_Qle in Hm. change (inject_Z 0) with 0%Q in Hm.
    set (m := inject_Z (round_half_even (x * Qpower 2 (- q)))) in *.
    assert (0 <= (- m) * Qpower 2 q)%Q
      by (apply Qmult_le_0_compat; lra).
    lra.
Qed.

Lemma round2_sign (x : Q) :
  ((0 <= x)%Q → (0 <= round2 x)%Q) ∧ ((x <= 0)%Q → (round2 x <= 0)%Q).
Proof.
  unfold round2. split; intros Hx.
  - assert (0 ≤ round_half_even (x * 100))%Z
      by (apply round_half_even_nonneg; lra).
    apply fl_sign. unfold Qle. simpl. lia.
  - assert (round_half_even (x * 100) ≤ 0)%Z
      by (apply round_half_even_nonpos; lra).
    apply fl_sign. unfold Qle. simpl. lia.
Qed.

Lemma percentage_sign (c t : Q) :
  (0 < c)%Q →
  ((c <= t)%Q → (0 <= percentage c t)%Q)
  ∧ ((t <= c)%Q → (percentage c t <= 0)%Q).
Proof.
  intros Hc. pose proof (Qinv_lt_0_compat c Hc) as Hinv.
  unfold percentage, Qdiv. split; intros H.
  - assert (0 <= fl (t - c))%Q as H1 by (apply fl_sign; lra).
    assert (0 <= fl (fl (t - c) * / c))%Q as H2.
    { apply fl_sign. apply Qmult_le_0_compat; lra. }
    apply fl_sign. lra.
  - assert (fl (t - c) <= 0)%Q as H1 by (apply fl_sign; lra).
    assert (fl (fl (t - c) * / c) <= 0)%Q as H2.
    { apply fl_sign.
      assert (0 <= (- fl (t - c)) * / c)%Q
        by (apply Qmult_le_0_compat; lra).
      lra. }
    apply fl_sign. lra.
Qed.

(** X10.  For a stock with a positive price the sign of the stored upside
    follows the target: not negative when the target is at or above the
    price, not positive when it is at or below, rounding included. *)
Theorem upside_sign yf (tickers : list string) (r : Row) (c t : Q) :
  r ∈ data_list (fetch_analyst_data yf tickers) →
  Price r = VNum c →
  Target_Price r = VNum t →
  (0 < c)%Q →
  ((c <= t)%Q → (0 <= Upside_Potential r)%Q)
  ∧ ((t <= c)%Q → (Upside_Potential r <= 0)%Q).
Proof.
  intros Hin Hp Ht Hc.
  destruct (fetch_row_info yf tickers r Hin) as (log & _ & Hr).
  apply attempt_body_row in Hr
    as (d & c' & t' & _ & _ & _ & _ & _ & _ & Hp' & Ht' & Hup & _).
  rewrite Hp in Hp'. rewrite Ht in Ht'. simplify_eq. rewrite Hup.
  destruct (percentage_sign c' t' Hc) as [Hpos Hneg].
  destruct (round2_sign (percentage c' t')) as [Hr1 Hr2].
  split; intros H; auto.
Qed.

Lemma upside_sign_witness :
  Samples.neo_row
    ∈ data_list (fetch_analyst_data Samples.listed_on_neo ["RY.TO"; "GME"])
  ∧ (0 < 80)%Q ∧ (80 <= 100)%Q
  ∧ (0 <= Upside_Potential Samples.neo_row)%Q.
Proof.
  assert (Samples.neo_row
            ∈ data_list
                (fetch_analyst_data Samples.listed_on_neo ["RY.TO"; "GME"]))
    as Hin by (rewrite fetch_neo; apply list_elem_of_here).
  assert (0 < 80)%Q as Hc by reflexivity.
  assert (80 <= 100)%Q as Hle by (apply Qle_bool_imp_le; reflexivity).
  split_and!; [exact Hin|exact Hc|exact Hle|].
  by apply (upside_sign Samples.listed_on_neo ["RY.TO"; "GME"]
              Samples.neo_row 80 100 Hin eq_refl eq_refl Hc).
Defined.

(** ** Whole runs *)

Section Runs.
Variable yf : list string -> string -> Stock.

Lemma succeeded_line (i total : nat) (k : string) (tickers : list string) :
  imap (λ j t, Succeeded (i + j + 1) total t) (k :: tickers)
  = Succeeded (i + 1) total k
    :: imap (λ j t, Succeeded (S i + j + 1) total t) tickers.
Proof.
  rewrite imap_cons. f_equal; [f_equal; lia|].
  apply imap_ext. intros j t _. simpl. f_equal. lia.
Qed.

Lemma failed_line (i total : nat) (k : string) (tickers : list string) :
  imap (λ j t, Failed (i + j + 1) total t) (k :: tickers)
  = Failed (i + 1) total k
    :: imap (λ j t, Failed (S i + j + 1) total t) tickers.
Proof.
  rewrite imap_cons. f_equal; [f_equal; lia|].
  apply imap_ext. intros j t _. simpl. f_equal. lia.
Qed.

Lemma ticker_loop_all_first (total i : nat) (tickers : list string)
    (st : state) :
  (∀ log t, t ∈ tickers → is_Some (try_attempt yf log t)) →
  requests (ticker_loop yf total i tickers st) = requests st ++ tickers
  ∧ Ticker <$> data_list (ticker_loop yf total i tickers st)
    = (Ticker <$> data_list st) ++ tickers
  ∧ stdout (ticker_loop yf total i tickers st)
    = stdout st ++ imap (λ j t, Succeeded (i + j + 1) total t) tickers.
Proof.
  revert i st. induction tickers as [|t tickers IH]; intros i st Hok.
  - simpl. by rewrite !app_nil_r.
  - cbn [ticker_loop].
    destruct (Hok (requests st) t) as [r Hr]; [apply list_elem_of_here|].
    destruct (IH (S i) (process_ticker yf total i t st)) as (H1 & H2 & H3).
    { intros log t' Ht'. apply Hok. by apply list_elem_of_further. }
    rewrite H1, H2, H3, process_ticker_eq, Hr. cbn [requests data_list stdout].
    rewrite fmap_app, succeeded_line, <- !(assoc_L (++)). simpl.
    by rewrite (try_attempt_ticker _ _ _ _ Hr).
Qed.

(** X11.  When the first attempt succeeds for every ticker, the run asks for
    each ticker once and for nothing else, and the frame has one row per
    ticker, labelled with it, in the order of the input. *)
Theorem run_all_succeed (tickers : list string) :
  (∀ log t, t ∈ tickers → is_Some (try_attempt yf log t)) →
  requests (fetch_analyst_data yf tickers) = tickers
  ∧ Ticker <$> data_list (fetch_analyst_data yf tickers) = tickers
  ∧ stdout (fetch_analyst_data yf tickers)
    = Starting (length tickers)
      :: imap (λ j t, Succeeded (j + 1) (length tickers) t) tickers.
Proof.
  intros Hok. unfold fetch_analyst_data.
  destruct (ticker_loop_all_first (length tickers) 0 tickers
              (initial_state (length tickers)) Hok) as (H1 & H2 & H3).
  by rewrite H1, H2, H3.
Qed.

Lemma ticker_loop_all_fail (total i : nat) (tickers : list string)
    (st : state) :
  (∀ log cur, try_attempt yf log cur = None) →
  requests (ticker_loop yf total i tickers st)
  = requests st ++ concat (attempts_of <$> tickers)
  ∧ data_list (ticker_loop yf total i tickers st) = data_list st
  ∧ stdout (ticker_loop yf total i tickers st)
    = stdout st ++ imap (λ j t, Failed (i + j + 1) total t) tickers.
Proof.
  intros Hdown. revert i st. induction tickers as [|t tickers IH]; intros i st.
  - simpl. by rewrite !app_nil_r.
  - cbn [ticker_loop].
    destruct (IH (S i) (process_ticker yf total i t st)) as (H1 & H2 & H3).
    rewrite H1, H2, H3, process_ticker_eq, !Hdown, failed_line, fmap_cons.
    cbn [concat].
    change (attempts_of t)
      with ([t] ++ (if endswith t ".TO" then [alternate t] else [])).
    destruct (endswith t ".TO"); cbn [requests data_list stdout];
      simpl; by rewrite <- !(assoc_L (++)).
Qed.

(** X12.  When no attempt succeeds (the remote source is down) the frame is
    empty, every ticker is reported as failed, and each ticker ending in
    [.TO] has cost two requests, any other one. *)
Theorem run_all_fail (tickers : list string) :
  (∀ log cur, try_attempt yf log cur = None) →
  data_list (fetch_analyst_data yf tickers) = []
  ∧ requests (fetch_analyst_data yf tickers)
    = concat (attempts_of <$> tickers)
  ∧ stdout (fetch_analyst_data yf tickers)
    = Starting (length tickers)
      :: imap (λ j t, Failed (j + 1) (length tickers) t) tickers.
Proof.
  intros Hdown. unfold fetch_analyst_data.
  destruct (ticker_loop_all_fail (length tickers) 0 tickers
              (initial_state (length tickers)) Hdown) as (H1 & H2 & H3).
  by rewrite H1, H2, H3.
Qed.

End Runs.

Lemma followed_always (log : list string) (t : string) :
  try_attempt Samples.followed log t = Some (Samples.followed_row t).
Proof. reflexivity. Qed.

Lemma run_all_succeed_witness :
  (∀ log t, t ∈ ["RY.TO"; "GME"] →
            is_Some (try_attempt Samples.followed log t))
  ∧ requests (fetch_analyst_data Samples.followed ["RY.TO"; "GME"])
    = ["RY.TO"; "GME"].
Proof.
  assert (∀ log t, t ∈ ["RY.TO"; "GME"] →
                   is_Some (try_attempt Samples.followed log t)) as Hok.
  { intros log t _. rewrite followed_always. by eexists. }
  split; [exact Hok|].
  by apply (run_all_succeed Samples.followed ["RY.TO"; "GME"]).
Defined.

Lemma run_all_fail_witness :
  (∀ log cur, try_attempt Samples.unreachable log cur = None)
  ∧ requests (fetch_analyst_data Samples.unreachable ["RY.TO"; "GME"])
    = ["RY.TO"; "RY.NE"; "GME"].
Proof.
  assert (∀ log cur, try_attempt Samples.unreachable log cur = None) as Hdown
    by reflexivity.
  split; [exact Hdown|].
  by destruct (run_all_fail Samples.unreachable ["RY.TO"; "GME"] Hdown)
    as (_ & -> & _).
Defined.

(** ** Sizes, labels and the progress counter *)

Lemma segments_length (tickers : list string) (segments : list (list string)) :
  Forall2 (λ ticker made,
             made = [ticker]
             ∨ endswith ticker ".TO" = true
               ∧ made = [ticker; alternate ticker])
    tickers segments →
  (length tickers ≤ length (concat segments) ≤ 2 * length tickers)%nat.
Proof.
  induction 1 as [|t made tickers segments Hmade _ IH]; simpl; [lia|].
  rewrite length_app. destruct Hmade as [-> | [_ ->]]; simpl; lia.
Qed.

Lemma label_of_line (t : string) (ln : line) :
  line_about t ln →
  succeeded_symbols [ln] `sublist_of` attempts_of t
  ∧ (length (succeeded_symbols [ln]) ≤ 1)%nat.
Proof.
  destruct ln as [n|i total cur|i total t']; [done| |].
  - intros H. split; [|simpl; lia]. apply singleton_sublist_l. exact H.
  - intros _. split; [|simpl; lia]. apply sublist_nil_l.
Qed.

Lemma labels_in_order (tickers : list string) (lines : list line) :
  Forall2 line_about tickers lines →
  succeeded_symbols lines `sublist_of` concat (attempts_of <$> tickers)
  ∧ (length (succeeded_symbols lines) ≤ length tickers)%nat.
Proof.
  induction 1 as [|t ln tickers lines Hln _ [IH1 IH2]]; [done|].
  rewrite fmap_cons. cbn [concat].
  change (ln :: lines) with ([ln] ++ lines).
  rewrite succeeded_symbols_app, length_app.
  destruct (label_of_line t ln Hln) as [H1 H2].
  split; [by apply sublist_app|]. cbn [length]. lia.
Qed.

(** X13.  A run over [n] tickers makes at least [n] and at most [2 n] requests,
    prints [n] report lines after the first line, and returns at most [n]
    rows, never more rows than requests. *)
Theorem run_sizes yf (tickers : list string) :
  let final := fetch_analyst_data yf tickers in
  (length tickers ≤ length (requests final) ≤ 2 * length tickers)%nat
  ∧ length (stdout final) = S (length tickers)
  ∧ (length (data_list final) ≤ length tickers)%nat
  ∧ (length (data_list final) ≤ length (requests final))%nat.
Proof.
  intros final. subst final. unfold fetch_analyst_data.
  destruct (ticker_loop_requests yf (length tickers) 0 tickers
              (initial_state (length tickers))) as (segments & Hreq & Hseg).
  destruct (ticker_loop_grows yf (length tickers) 0 tickers
              (initial_state (length tickers)))
    as (rows & lines & Hd & Ho & Hall & Hsym).
  pose proof (segments_length _ _ Hseg) as Hlen.
  destruct (labels_in_order _ _ Hall) as [_ Hrows].
  rewrite <- Hsym, length_fmap in Hrows.
  rewrite Hreq, Hd, Ho. cbn [requests data_list stdout initial_state app].
  rewrite (Forall2_length _ _ _ Hall) in *. simpl. lia.
Qed.

Lemma elem_of_concat_1 {A} (x : A) (ls : list (list A)) :
  x ∈ concat ls → ∃ l, x ∈ l ∧ l ∈ ls.
Proof.
  induction ls as [|l ls IH]; simpl; [by intros ?%elem_of_nil|].
  intros [H | H]%elem_of_app.
  - exists l. split; [done|apply list_elem_of_here].
  - destruct (IH H) as (l' & ? & ?). exists l'.
    split; [done|by apply list_elem_of_further].
Qed.

(** X14.  The rows keep the order of the input, and the label of a row is a
    symbol that was requested for some input ticker: the ticker itself,
    or its alternate when the ticker ends in [.TO]. *)
Theorem rows_labelled_in_order yf (tickers : list string) :
  Ticker <$> data_list (fetch_analyst_data yf tickers)
    `sublist_of` concat (attempts_of <$> tickers)
  ∧ ∀ r, r ∈ data_list (fetch_analyst_data yf tickers) →
         ∃ t, t ∈ tickers
              ∧ (Ticker r = t
                 ∨ endswith t ".TO" = true ∧ Ticker r = alternate t).
Proof.
  unfold fetch_analyst_data.
  destruct (ticker_loop_grows yf (length tickers) 0 tickers
              (initial_state (length tickers)))
    as (rows & lines & Hd & Ho & Hall & Hsym).
  rewrite Hd. cbn [data_list initial_state app].
  destruct (labels_in_order _ _ Hall) as [Hsub _].
  assert (Ticker <$> rows `sublist_of` concat (attempts_of <$> tickers))
    as Hlabels by (by rewrite <- Hsym in Hsub).
  split; [done|].
  intros r Hr.
  assert (Ticker r ∈ concat (attempts_of <$> tickers)) as Hin.
  { eapply elem_of_sublist; [|exact Hlabels]. by apply list_elem_of_fmap_2. }
  apply elem_of_concat_1 in Hin as (made & Hr' & Hmade).
  apply list_elem_of_fmap in Hmade as (t & -> & Ht).
  exists t. split; [done|]. unfold attempts_of in Hr'.
  destruct (endswith t ".TO"); simpl in Hr'.
  - apply elem_of_cons in Hr' as [-> | Hr']; [by left|].
    apply list_elem_of_singleton in Hr' as ->. by right.
  - apply list_elem_of_singleton in Hr' as ->. by left.
Qed.

Lemma process_ticker_line yf (total i : nat) (t : string) (st : state) :
  ∃ ln, stdout (process_ticker yf total i t st) = stdout st ++ [ln]
        ∧ line_number ln = Some ((i + 1)%nat, total)
        ∧ line_about t ln.
Proof.
  rewrite process_ticker_eq.
  destruct (try_attempt yf (requests st) t) as [r0|].
  { eexists. split_and!; [done..|]. unfold line_about, attempts_of.
    apply list_elem_of_here. }
  destruct (endswith t ".TO") eqn:Hto.
  - destruct (try_attempt yf (requests st ++ [t]) (alternate t)) as [r1|].
    + eexists. split_and!; [done..|]. unfold line_about, attempts_of.
      rewrite Hto. apply list_elem_of_further, list_elem_of_here.
    + by eexists.
  - by eexists.
Qed.

Lemma ticker_loop_lines yf (total i : nat) (tickers : list string)
    (st : state) :
  ∃ lines,
    stdout (ticker_loop yf total i tickers st) = stdout st ++ lines
    ∧ ∀ k t, tickers !! k = Some t →
             ∃ ln, lines !! k = Some ln
                   ∧ line_number ln = Some ((i + k + 1)%nat, total)
                   ∧ line_about t ln.
Proof.
  revert i st. induction tickers as [|t tickers IH]; intros i st.
  - exists []. rewrite app_nil_r. split; [done|]. by intros k t ?.
  - cbn [ticker_loop].
    destruct (process_ticker_line yf total i t st) as (ln & Ho & Hn & Ha).
    destruct (IH (S i) (process_ticker yf total i t st)) as (lines & Hl & Hk).
    exists (ln :: lines). split.
    + by rewrite Hl, Ho, <- (assoc_L (++)).
    + intros [|k] t' Ht'; simpl in *.
      * injection Ht' as <-. exists ln. rewrite Nat.add_0_r. by split_and!.
      * destruct (Hk k t' Ht') as (ln' & ? & Hn' & ?). exists ln'.
        split_and!; [done| |done]. rewrite Hn'. do 2 f_equal. lia.
Qed.

(** The run up to the ticker at position [k], that ticker, and the rest. *)
Lemma report_line yf (tickers : list string) (k : nat) (t : string) :
  tickers !! k = Some t →
  let total := length tickers in
  let st1 := ticker_loop yf total 0 (take k tickers) (initial_state total) in
  length (stdout st1) = S k
  ∧ ∃ rest, stdout (fetch_analyst_data yf tickers)
            = stdout (process_ticker yf total k t st1) ++ rest.
Proof.
  intros Hk total st1.
  assert (length (take k tickers) = k) as Hlen.
  { rewrite length_take. apply lookup_lt_Some in Hk. lia. }
  split.
  - subst st1.
    destruct (ticker_loop_grows yf total 0 (take k tickers)
                (initial_state total)) as (_ & lines & _ & -> & Hall & _).
    apply Forall2_length in Hall. rewrite length_app. simpl. lia.
  - unfold fetch_analyst_data. fold total.
    assert (ticker_loop yf total 0 tickers (initial_state total)
            = ticker_loop yf total (S k) (drop (S k) tickers)
                (process_ticker yf total k t st1)) as ->.
    { transitivity (ticker_loop yf total 0
                      (take k tickers ++ t :: drop (S k) tickers)
                      (initial_state total));
        [by rewrite take_drop_middle|].
      by rewrite ticker_loop_app, Hlen. }
    destruct (ticker_loop_grows yf total (S k) (drop (S k) tickers)
                (process_ticker yf total k t st1))
      as (_ & rest & _ & -> & _).
    by exists rest.
Qed.

Lemma lookup_report (out rest : list line) (ln : line) (k : nat) :
  length out = S k → ((out ++ [ln]) ++ rest) !! S k = Some ln.
Proof.
  intros Hlen. rewrite <- (assoc_L (++)). simpl.
  by apply list_lookup_middle.
Qed.

(** X15.  The report line of the ticker at position [k] (from 0) is line
    [k + 1] of the output, after the opening line, and the output has one
    line per ticker besides that one.  The line is the success line with
    counter [k + 1] of the number of tickers naming the ticker when the
    source answers for the ticker; the success line naming the alternate
    symbol when the source does not answer for the ticker, the ticker ends
    with [.TO] and the source answers for the alternate; and the failure
    line naming the ticker in every other case. *)
Theorem progress_counter yf (tickers : list string) (k : nat) (t : string) :
  tickers !! k = Some t →
  let total := length tickers in
  let out := stdout (fetch_analyst_data yf tickers) in
  let st1 := ticker_loop yf total 0 (take k tickers) (initial_state total) in
  let first := yf (requests st1) t in
  let second := yf (requests st1 ++ [t]) (alternate t) in
  out !! 0%nat = Some (Starting total)
  ∧ length out = S total
  ∧ (∃ ln, out !! S k = Some ln
           ∧ line_number ln = Some (S k, total)
           ∧ line_about t ln)
  ∧ (answers first → out !! S k = Some (Succeeded (S k) total t))
  ∧ (¬ answers first → endswith t ".TO" = true → answers second →
     out !! S k = Some (Succeeded (S k) total (alternate t)))
  ∧ (¬ answers first → endswith t ".TO" = false ∨ ¬ answers second →
     out !! S k = Some (Failed (S k) total t)).
Proof.
  intros Hk total out st1 first second.
  destruct (report_line yf tickers k t Hk) as (Hlen & rest & Hout).
  fold total st1 in Hlen, Hout. fold out in Hout.
  destruct (process_ticker_answers yf total k t st1) as (Hone & Halt & Hnone).
  fold first second in Hone, Halt, Hnone.
  rewrite Nat.add_1_r in Hone, Halt, Hnone.
  split_and!.
  - subst out. unfold fetch_analyst_data. fold total.
    destruct (ticker_loop_grows yf total 0 tickers (initial_state total))
      as (_ & lines & _ & -> & _).
    done.
  - subst out. unfold fetch_analyst_data. fold total.
    destruct (ticker_loop_grows yf total 0 tickers (initial_state total))
      as (_ & lines & _ & -> & Hall & _).
    apply Forall2_length in Hall. rewrite length_app. simpl.
    subst total. lia.
  - subst out. unfold fetch_analyst_data. fold total.
    destruct (ticker_loop_lines yf total 0 tickers (initial_state total))
      as (lines & -> & Hlines).
    destruct (Hlines k t Hk) as (ln & Hln & Hn & Ha).
    exists ln. split_and!; [done| |done].
    rewrite Hn. do 2 f_equal. lia.
  - intros Hans. destruct (Hone Hans) as (r & _ & Hline & _).
    rewrite Hout, Hline. by apply lookup_report.
  - intros Hno Hto Hans.
    destruct (Halt Hno Hto Hans) as (r & _ & Hline & _).
    rewrite Hout, Hline. by apply lookup_report.
  - intros Hno Hor. destruct (Hnone Hno Hor) as (_ & Hline).
    rewrite Hout, Hline. by apply lookup_report.
Qed.

Lemma progress_counter_witness :
  (["GME"; "RY.TO"] !! 1%nat = Some "RY.TO"
   ∧ ¬ answers (Samples.listed_on_neo ["GME"] "RY.TO")
   ∧ endswith "RY.TO" ".TO" = true
   ∧ answers (Samples.listed_on_neo ["GME"; "RY.TO"] "RY.NE"))
  ∧ stdout (fetch_analyst_data Samples.listed_on_neo ["GME"; "RY.TO"])
      !! 2%nat
    = Some (Succeeded 2 2 "RY.NE").
Proof.
  assert (["GME"; "RY.TO"] !! 1%nat = Some "RY.TO") as Hk by reflexivity.
  assert (¬ answers (Samples.listed_on_neo ["GME"] "RY.TO")) as Hfirst.
  { intros (d & c & t & Hd & _). discriminate Hd. }
  assert (endswith "RY.TO" ".TO" = true) as Hto by reflexivity.
  assert (answers (Samples.listed_on_neo ["GME"; "RY.TO"] "RY.NE")) as Hsecond.
  { exists Samples.quote, 80%Q, 100%Q.
    split_and!; [reflexivity..|discriminate|discriminate|exact I]. }
  split; [by split_and!|].
  pose proof (progress_counter Samples.listed_on_neo ["GME"; "RY.TO"] 1
                "RY.TO" Hk) as H.
  cbv zeta in H. destruct H as (_ & _ & _ & _ & Halt & _).
  exact (Halt Hfirst Hto Hsecond).
Defined.

End FetchDataMore.

(** * Further properties of app.py *)

Module AppMore.
Import App AppProofs.

(** ** Loading and the cache *)

(** X16.  Only a missing file is caught: any other failure of [pd.read_csv]
    (an empty or malformed file) leaves [load_data] as an exception, ends
    the run uncaught and caches nothing. *)
Theorem other_read_errors_propagate (e : exn) (refresh : bool)
    (cache : cache_state) (c : Controls) :
  e ≠ FileNotFoundError →
  refresh = true ∨ cache = None →
  load_data (Some (Raise e)) = Raise e
  ∧ run refresh cache (Some (Raise e)) c = (Uncaught e, None).
Proof.
  intros He Hcold.
  assert (load_data (Some (Raise e)) = Raise e) as Hload
    by (by destruct e).
  split; [done|]. unfold run, load_data_cached.
  destruct Hcold as [-> | ->]; [|destruct refresh]; by rewrite Hload.
Qed.

Lemma other_read_errors_propagate_witness :
  OtherError "EmptyDataError" ≠ FileNotFoundError
  ∧ run true (Some None) (Some (Raise (OtherError "EmptyDataError")))
      (Samples.wide_open by_Upside_Potential)
    = (Uncaught (OtherError "EmptyDataError"), None).
Proof.
  assert (OtherError "EmptyDataError" ≠ FileNotFoundError) as He
    by discriminate.
  split; [exact He|].
  apply (other_read_errors_propagate (OtherError "EmptyDataError") true
           (Some None) (Samples.wide_open by_Upside_Potential) He).
  by left.
Defined.

(** X17.  Once a run has cached what [load_data] returned, a later run without
    refresh and with the same widget values ends the same way whatever
    has become of the file.  In particular a cached [None] keeps the error
    on screen after the file has been created, until the cache is cleared
    or expires; pressing refresh makes the run depend on the file alone. *)
Theorem later_runs_repeat (refresh : bool) (cache : cache_state)
    (file1 file2 : file_state) (c : Controls) :
  (run refresh cache file1 c).2 ≠ None →
  run false (run refresh cache file1 c).2 file2 c = run refresh cache file1 c
  ∧ (∀ c', run false (Some None) file2 c'
           = (ErrorAndStop not_found_message, Some None))
  ∧ run true cache file2 c = run false None file2 c.
Proof.
  intros Hcached. split_and!; [|done..].
  unfold run, load_data_cached in *.
  destruct (if refresh then None else cache) as [[df|]|]; [| done |].
  - destruct (analysts_slider df) eqn:E; simpl; by rewrite E.
  - destruct (load_data file1) as [[df|]|e]; [|done..].
    destruct (analysts_slider df) eqn:E; simpl; by rewrite E.
Qed.

Lemma later_runs_repeat_witness :
  (run false None None (Samples.wide_open by_Upside_Potential)).2 ≠ None
  ∧ run false (run false None None (Samples.wide_open by_Upside_Potential)).2
      (Some (Ok [Samples.bank])) (Samples.wide_open by_Upside_Potential)
    = (ErrorAndStop not_found_message, Some None).
Proof.
  assert ((run false None None (Samples.wide_open by_Upside_Potential)).2
          ≠ None) as H by discriminate.
  split; [exact H|].
  by rewrite (proj1 (later_runs_repeat false None None
                       (Some (Ok [Samples.bank]))
                       (Samples.wide_open by_Upside_Potential) H)).
Defined.

(** ** The analyst-count slider *)

Lemma column_max_from (cells : list (option Q)) (acc : option Q) :
  fold_left
    (λ acc cell,
       match acc, cell with
       | Some m, Some x => Some (if Qle_bool m x then x else m)
       | None, _ => cell
       | _, None => acc
       end) cells acc = None
  ↔ acc = None ∧ Forall (λ cell, cell = None) cells.
Proof.
  revert acc. induction cells as [|cell cells IH]; intros acc; simpl.
  - split; [by intros ->|by intros [-> _]].
  - rewrite IH, Forall_cons.
    destruct acc as [m|], cell as [x|]; split; intros H;
      try (by destruct H as [? ?]); by destruct H as [? [? ?]].
Qed.

Lemma column_max_none (cells : list (option Q)) :
  column_max cells = None ↔ Forall (λ cell, cell = None) cells.
Proof.
  unfold column_max. rewrite column_max_from.
  split; [by intros [_ ?]|by split].
Qed.

Lemma column_max_from_some (cells : list (option Q)) (acc : option Q) (m : Q) :
  fold_left
    (λ acc cell,
       match acc, cell with
       | Some m, Some x => Some (if Qle_bool m x then x else m)
       | None, _ => cell
       | _, None => acc
       end) cells acc = Some m →
  (acc = Some m ∨ Some m ∈ cells)
  ∧ (∀ x, acc = Some x → (x <= m)%Q)
  ∧ (∀ x, Some x ∈ cells → (x <= m)%Q).
Proof.
  revert acc. induction cells as [|cell cells IH]; intros acc; simpl.
  - intros ->. split_and!; [by left| |].
    + intros x [= ->]. apply Qle_refl.
    + intros x Hx. by apply elem_of_nil in Hx.
  - intros H. apply IH in H as (Hin & Hacc & Hcells).
    destruct acc as [a|], cell as [x|].
    + destruct (Qle_bool a x) eqn:Hax.
      * apply Qle_bool_iff in Hax. split_and!.
        -- right. destruct Hin as [-> | Hin];
             [apply list_elem_of_here|by apply list_elem_of_further].
        -- intros y [= ->]. eapply Qle_trans; [exact Hax|by apply Hacc].
        -- intros y [[= ->] | Hy]%elem_of_cons; [by apply Hacc|by apply Hcells].
      * assert (x <= a)%Q as Hxa.
        { apply Qlt_le_weak, Qnot_le_lt. intros Hle.
          apply Qle_bool_iff in Hle. congruence. }
        split_and!.
        -- destruct Hin as [-> | Hin];
             [by left|right; by apply list_elem_of_further].
        -- done.
        -- intros y [[= ->] | Hy]%elem_of_cons; [|by apply Hcells].
           eapply Qle_trans; [exact Hxa|by apply Hacc].
    + split_and!.
      * destruct Hin as [-> | Hin];
          [by left|right; by apply list_elem_of_further].
      * done.
      * intros y [[=] | Hy]%elem_of_cons. by apply Hcells.
    + split_and!.
      * right. destruct Hin as [-> | Hin];
          [apply list_elem_of_here|by apply list_elem_of_further].
      * done.
      * intros y [[= ->] | Hy]%elem_of_cons; [by apply Hacc|by apply Hcells].
    + split_and!.
      * destruct Hin as [[=] | Hin]. right. by apply list_elem_of_further.
      * done.
      * intros y [[=] | Hy]%elem_of_cons. by apply Hcells.
Qed.

(** The maximum is one of the numbers of the column and bounds them all. *)
Lemma column_max_some (cells : list (option Q)) (m : Q) :
  column_max cells = Some m →
  Some m ∈ cells ∧ ∀ x, Some x ∈ cells → (x <= m)%Q.
Proof.
  intros H. apply column_max_from_some in H as ([[=] | Hin] & _ & Hle).
  by split.
Qed.

(** [int(x)] truncates towards zero: it is above 0 exactly from 1 on. *)
Lemma py_int_positive (q : Q) :
  (0 <? Z.quot (Qnum q) (Z.pos (Qden q)))%Z = true ↔ (1 <= q)%Q.
Proof.
  rewrite Z.ltb_lt. unfold Qle. simpl. rewrite Z.mul_1_l, Z.mul_1_r.
  split.
  - intros Hpos.
    destruct (Z_le_gt_dec (Z.pos (Qden q)) (Qnum q)) as [?|Hlt]; [done|].
    exfalso. destruct (Z_le_gt_dec 0 (Qnum q)) as [Hnn|Hneg].
    + rewrite Z.quot_small in Hpos; lia.
    + assert (Qnum q ÷ Z.pos (Qden q) <= 0 ÷ Z.pos (Qden q))%Z as Hle
        by (apply Z.quot_le_mono; lia).
      rewrite Z.quot_0_l in Hle; lia.
  - intros Hle. apply Z.quot_str_pos. lia.
Qed.

(** X18.  What the analyst-count slider makes of a loaded table.  When no row
    has an analyst count, the empty table included, the run ends on the
    [ValueError] of [int(NaN)] in the slider bounds.  When some row has a
    count but every count is below 1 (so that the largest truncates to 0
    or less), the slider refuses its bounds and the run ends on
    Streamlit's min/max error.  When some row has a count of at least 1
    the run shows the sorted rows, and the metric is the number of rows
    that pass the filters. *)
Theorem table_without_counts_crashes (df : DataFrame) (c : Controls) :
  (Forall (λ r, Num_Analysts r = None) df →
   run false None (Some (Ok df)) c = (Uncaught ValueError, Some (Some df)))
  ∧ ((∃ r, r ∈ df ∧ is_Some (Num_Analysts r)) →
     Forall (λ r, ∀ n, Num_Analysts r = Some n → (n < 1)%Q) df →
     run false None (Some (Ok df)) c
     = (Uncaught StreamlitInvalidMinMaxError, Some (Some df)))
  ∧ ((∃ r n, r ∈ df ∧ Num_Analysts r = Some n ∧ (1 <= n)%Q) →
     run false None (Some (Ok df)) c
     = (Displayed (length (filtered_df c df)) (sorted_df c df),
        Some (Some df)))
  ∧ run false None (Some (Ok [])) c = (Uncaught ValueError, Some (Some [])).
Proof.
  unfold run, load_data_cached, load_data, read_csv, analysts_slider, slider,
    py_int.
  split_and!; [| | |done].
  - intros Hall.
    assert (column_max (map Num_Analysts df) = None) as ->; [|done].
    apply column_max_none. by apply Forall_fmap.
  - intros (r & Hr & Hsome) Hsmall.
    destruct (column_max (map Num_Analysts df)) as [m|] eqn:Hmax.
    + cbn [rbind].
      destruct (0 <? _)%Z eqn:Hpos; [|done]. exfalso.
      apply py_int_positive in Hpos.
      apply column_max_some in Hmax as [Hin _].
      apply (proj1 (list_elem_of_fmap _ _ _)) in Hin as (r' & Hm & Hr').
      rewrite Forall_forall in Hsmall.
      specialize (Hsmall r' Hr' m (eq_sym Hm)).
      by apply Qlt_not_le in Hsmall.
    + apply column_max_none in Hmax. apply Forall_fmap in Hmax.
      rewrite Forall_forall in Hmax. specialize (Hmax r Hr). simpl in Hmax.
      rewrite Hmax in Hsome. by destruct Hsome.
  - intros (r & n & Hr & Hn & Hle).
    assert (Some n ∈ map Num_Analysts df) as Hin.
    { rewrite <- Hn. apply (list_elem_of_fmap_2 Num_Analysts), Hr. }
    destruct (column_max (map Num_Analysts df)) as [m|] eqn:Hmax.
    + cbn [rbind]. apply column_max_some in Hmax as [_ Hbound].
      assert ((0 <? Qnum m ÷ Z.pos (Qden m))%Z = true) as ->.
      { apply py_int_positive. eapply Qle_trans; [exact Hle|by apply Hbound]. }
      do 2 f_equal. unfold sorted_df, sort_values.
      by rewrite merge_sort_Permutation.
    + apply column_max_none in Hmax. rewrite Forall_forall in Hmax.
      by specialize (Hmax _ Hin).
Qed.

Lemma table_without_counts_crashes_witness :
  (∃ r n, r ∈ [Samples.miner; Samples.bank] ∧ Num_Analysts r = Some n
          ∧ (1 <= n)%Q)
  ∧ run false None (Some (Ok [Samples.miner; Samples.bank]))
      (Samples.wide_open by_Upside_Potential)
    = (Displayed
         (length (filtered_df (Samples.wide_open by_Upside_Potential)
                    [Samples.miner; Samples.bank]))
         (sorted_df (Samples.wide_open by_Upside_Potential)
            [Samples.miner; Samples.bank]),
       Some (Some [Samples.miner; Samples.bank])).
Proof.
  assert (∃ r n, r ∈ [Samples.miner; Samples.bank] ∧ Num_Analysts r = Some n
                 ∧ (1 <= n)%Q) as H.
  { exists Samples.miner, 20%Q.
    split; [apply list_elem_of_here|]. split; [reflexivity|discriminate]. }
  split; [exact H|].
  exact (proj1 (proj2 (proj2 (table_without_counts_crashes
                                [Samples.miner; Samples.bank]
                                (Samples.wide_open by_Upside_Potential)))) H).
Defined.

(** A table whose only count is 0: the slider refuses its bounds. *)
Example zero_count_table_crashes :
  run false None (Some (Ok [Samples.unfollowed]))
    (Samples.wide_open by_Upside_Potential)
  = (Uncaught StreamlitInvalidMinMaxError, Some (Some [Samples.unfollowed])).
Proof. reflexivity. Qed.

(** ** What is shown *)

Lemma ge_floor_iff (v : option Q) (floor : Q) :
  ge_floor v floor = true ↔ ∃ x, v = Some x ∧ (floor <= x)%Q.
Proof.
  destruct v as [x|]; simpl.
  - rewrite Qle_bool_iff. split; [by exists x|by intros (? & [= <-] & ?)].
  - split; [done|by intros (? & ? & _)].
Qed.

Lemma isin_sector_iff (v : option string) (sectors : list string) :
  isin v (Some <$> sectors) = true ↔ ∃ s, v = Some s ∧ s ∈ sectors.
Proof.
  unfold isin. rewrite bool_decide_eq_true, list_elem_of_fmap.
  split; intros (s & ? & ?); by exists s.
Qed.

Lemma elem_of_filter_bool {A} (f : A → bool) (l : list A) (x : A) :
  x ∈ List.filter f l ↔ x ∈ l ∧ f x = true.
Proof. rewrite !list_elem_of_In. apply filter_In. Qed.

Lemma mask_iff (c : Controls) (r : CsvRow) :
  mask c r = true
  ↔ (∃ n, Num_Analysts r = Some n ∧ (inject_Z (min_analysts c) <= n)%Q)
    ∧ (∃ u, Upside_Potential r = Some u ∧ (min_upside c <= u)%Q)
    ∧ (∃ d, Dividend_Yield r = Some d ∧ (min_div c <= d)%Q)
    ∧ Rating r ∈ rating_filter c
    ∧ (∃ s, Sector r = Some s ∧ s ∈ selected_sectors c).
Proof.
  unfold mask. rewrite !andb_true_iff, !ge_floor_iff, isin_sector_iff.
  unfold isin. rewrite bool_decide_eq_true. tauto.
Qed.

(** X19.  A row passes the filters exactly when it is a row of the table whose
    analyst count, upside and dividend yield are present and at or above
    their floors, whose rating is among the selected ones and whose sector
    is a selected text.  A row with any of the three numbers or the sector
    missing is hidden whatever the widget values, negative floors
    included. *)
Theorem shown_iff (c : Controls) (df : DataFrame) (r : CsvRow) :
  r ∈ filtered_df c df
  ↔ r ∈ df
    ∧ (∃ n, Num_Analysts r = Some n ∧ (inject_Z (min_analysts c) <= n)%Q)
    ∧ (∃ u, Upside_Potential r = Some u ∧ (min_upside c <= u)%Q)
    ∧ (∃ d, Dividend_Yield r = Some d ∧ (min_div c <= d)%Q)
    ∧ Rating r ∈ rating_filter c
    ∧ (∃ s, Sector r = Some s ∧ s ∈ selected_sectors c).
Proof.
  unfold filtered_df. by rewrite elem_of_filter_bool, mask_iff.
Qed.

(** X20.  Whenever a run displays a table, that table is a rearrangement of the
    rows of the loaded frame that pass the filters, the metric counts
    them, and the loaded frame is what the cache holds afterwards. *)
Theorem displayed_rows (refresh : bool) (cache : cache_state)
    (file : file_state) (c : Controls) (n : nat) (shown : DataFrame)
    (cache' : cache_state) :
  run refresh cache file c = (Displayed n shown, cache') →
  ∃ df, cache' = Some (Some df)
        ∧ shown = sorted_df c df
        ∧ shown ≡ₚ filtered_df c df
        ∧ n = length (filtered_df c df)
        ∧ ∀ r, r ∈ shown → r ∈ df ∧ mask c r = true.
Proof.
  unfold run, load_data_cached.
  assert (∀ df, sorted_df c df ≡ₚ filtered_df c df) as Hperm.
  { intros df. unfold sorted_df, sort_values. apply merge_sort_Permutation. }
  assert (∀ df r, r ∈ sorted_df c df → r ∈ df ∧ mask c r = true) as Hin.
  { intros df r Hr. rewrite Hperm in Hr. unfold filtered_df in Hr.
    by apply elem_of_filter_bool in Hr. }
  destruct (if refresh then None else cache) as [[df|]|].
  - destruct (analysts_slider _); [|done]. intros [= <- <- <-]. exists df.
    split_and!; [done..| |apply Hin]. by rewrite Hperm.
  - done.
  - destruct (load_data file) as [[df|]|e]; [|done..].
    destruct (analysts_slider _); [|done]. intros [= <- <- <-]. exists df.
    split_and!; [done..| |apply Hin]. by rewrite Hperm.
Qed.

Lemma displayed_rows_witness :
  run false None (Some (Ok [Samples.miner; Samples.bank]))
    Samples.raised_upside
  = (Displayed 1 [Samples.bank], Some (Some [Samples.miner; Samples.bank]))
  ∧ ∃ df, Some (Some [Samples.miner; Samples.bank]) = Some (Some df)
          ∧ [Samples.bank] = sorted_df Samples.raised_upside df
          ∧ [Samples.bank] ≡ₚ filtered_df Samples.raised_upside df
          ∧ 1%nat = length (filtered_df Samples.raised_upside df)
          ∧ ∀ r, r ∈ [Samples.bank] →
                 r ∈ df ∧ mask Samples.raised_upside r = true.
Proof.
  assert (run false None (Some (Ok [Samples.miner; Samples.bank]))
            Samples.raised_upside
          = (Displayed 1 [Samples.bank],
             Some (Some [Samples.miner; Samples.bank]))) as Hrun
    by (vm_compute; reflexivity).
  split; [exact Hrun|].
  exact (displayed_rows false None (Some (Ok [Samples.miner; Samples.bank]))
           Samples.raised_upside 1 [Samples.bank] _ Hrun).
Defined.

(** X21.  Sorting by the analyst count is descending as well: most followed
    stocks first, rows without a count last. *)
Theorem sort_by_analysts_descending (c : Controls) (df : DataFrame) :
  sort_col c = by_Num_Analysts →
  ascending (sort_col c) = false
  ∧ StronglySorted (descending_by Num_Analysts) (sorted_df c df).
Proof.
  intros Hcol. unfold sorted_df. rewrite Hcol. split; [done|].
  eapply StronglySorted_impl; [apply row_before_descending|].
  apply sort_values_sorted.
Qed.

Lemma sort_by_analysts_descending_witness :
  sort_col (Samples.wide_open by_Num_Analysts) = by_Num_Analysts
  ∧ sorted_df (Samples.wide_open by_Num_Analysts)
      [Samples.bank; Samples.miner]
    = [Samples.miner; Samples.bank]
  ∧ StronglySorted (descending_by Num_Analysts)
      (sorted_df (Samples.wide_open by_Num_Analysts)
         [Samples.bank; Samples.miner]).
Proof.
  split_and!; [reflexivity|vm_compute; reflexivity|].
  by apply (sort_by_analysts_descending (Samples.wide_open by_Num_Analysts)
              [Samples.bank; Samples.miner]).
Defined.

(** ** The default selections *)

Lemma elem_of_unique_from {A} `{EqDecision A} (seen l : list A) (x : A) :
  x ∈ unique_from seen l ↔ x ∈ l ∧ x ∉ seen.
Proof.
  revert seen. induction l as [|y l IH]; intros seen; simpl.
  - split; [by intros ?%elem_of_nil|by intros [?%elem_of_nil _]].
  - case_bool_decide as Hy.
    + rewrite IH, elem_of_cons. split; [tauto|].
      intros [[-> | ?] ?]; [done|tauto].
    + rewrite !elem_of_cons, IH, not_elem_of_cons. split.
      * intros [-> | (? & ? & ?)]; tauto.
      * intros [[-> | ?] ?]; [by left|].
        destruct (decide (x = y)) as [->|]; [by left|right; tauto].
Qed.

Lemma elem_of_unique {A} `{EqDecision A} (l : list A) (x : A) :
  x ∈ unique l ↔ x ∈ l.
Proof.
  unfold unique. rewrite elem_of_unique_from.
  split; [tauto|]. intros ?. split; [done|apply not_elem_of_nil].
Qed.

Lemma NoDup_unique_from {A} `{EqDecision A} (seen l : list A) :
  NoDup (unique_from seen l).
Proof.
  revert seen. induction l as [|y l IH]; intros seen; simpl; [constructor|].
  case_bool_decide; [apply IH|]. constructor; [|apply IH].
  rewrite elem_of_unique_from, not_elem_of_cons. tauto.
Qed.

#[local] Instance str_le_total : Total str_le.
Proof. intros a b. apply String.leb_total. Qed.

Lemma elem_of_available_sectors (df : DataFrame) (s : string) :
  s ∈ available_sectors df ↔ ∃ r, r ∈ df ∧ Sector r = Some s.
Proof.
  unfold available_sectors.
  rewrite merge_sort_Permutation, elem_of_unique, list_elem_of_omap.
  done.
Qed.

(** X22.  The sector choices offered by the side bar are exactly the sectors
    that occur in the table, each once, in alphabetical order; a missing
    sector is not among them. *)
Theorem sector_options (df : DataFrame) :
  (∀ s, s ∈ available_sectors df ↔ ∃ r, r ∈ df ∧ Sector r = Some s)
  ∧ NoDup (available_sectors df)
  ∧ Sorted str_le (available_sectors df).
Proof.
  split_and!.
  - apply elem_of_available_sectors.
  - unfold available_sectors. rewrite merge_sort_Permutation.
    apply NoDup_unique_from.
  - unfold available_sectors. apply Sorted_merge_sort. apply _.
Qed.

(** X23.  Before the user touches a widget, the filters hide exactly the rows
    with a missing sector, a missing or negative analyst count, a missing
    or negative upside, or a missing or negative dividend yield: every
    sector and every rating of the table is selected (a missing rating
    too), so neither hides anything else. *)
Theorem default_view (df : DataFrame) (r : CsvRow) :
  r ∈ filtered_df (default_controls df) df
  ↔ r ∈ df
    ∧ is_Some (Sector r)
    ∧ (∃ n, Num_Analysts r = Some n ∧ (0 <= n)%Q)
    ∧ (∃ u, Upside_Potential r = Some u ∧ (0 <= u)%Q)
    ∧ (∃ d, Dividend_Yield r = Some d ∧ (0 <= d)%Q).
Proof.
  unfold filtered_df. rewrite elem_of_filter_bool, mask_iff.
  cbn [default_controls min_analysts min_upside min_div rating_filter
         selected_sectors].
  change (inject_Z 0) with 0%Q. split.
  - intros (Hr & Hn & Hu & Hd & _ & (s & Hs & _)).
    split_and!; try done; by exists s.
  - intros (Hr & [s Hs] & Hn & Hu & Hd). split_and!; try done.
    + apply elem_of_unique. by apply list_elem_of_fmap_2.
    + exists s. split; [done|]. apply elem_of_available_sectors. by exists r.
Qed.

(** X24.  With the three floors unchanged, narrowing the sector or the
    rating selection never adds a row: the new result is a sub-list of the
    old one. *)
Theorem selections_monotonic (c c' : Controls) (df : DataFrame) :
  min_analysts c' = min_analysts c →
  min_upside c' = min_upside c →
  min_div c' = min_div c →
  (∀ s, s ∈ selected_sectors c' → s ∈ selected_sectors c) →
  (∀ v, v ∈ rating_filter c' → v ∈ rating_filter c) →
  sublist (filtered_df c' df) (filtered_df c df)
  ∧ (length (filtered_df c' df) ≤ length (filtered_df c df))%nat.
Proof.
  intros Han Hup Hdiv Hsec Hrat.
  assert (sublist (filtered_df c' df) (filtered_df c df)) as Hsub.
  { apply filter_sublist. intros r. rewrite !mask_iff, Han, Hup, Hdiv.
    intros (Hn & Hu & Hd & Hr & (s & Hs & Hin)).
    split_and!; [done..|by apply Hrat|]. exists s. split; [done|by apply Hsec]. }
  split; [done|by apply sublist_length].
Qed.

Lemma selections_monotonic_witness :
  (∀ s, s ∈ ["Financial Services"] →
        s ∈ selected_sectors (Samples.wide_open by_Upside_Potential))
  ∧ filtered_df
      {| selected_sectors := ["Financial Services"];
         min_analysts := 0; min_upside := 0; min_div := 0;
         rating_filter := [Some "buy"];
         sort_col := by_Upside_Potential |}
      [Samples.miner; Samples.bank]
    = [Samples.bank]
  ∧ sublist
      (filtered_df
         {| selected_sectors := ["Financial Services"];
            min_analysts := 0; min_upside := 0; min_div := 0;
            rating_filter := [Some "buy"];
            sort_col := by_Upside_Potential |}
         [Samples.miner; Samples.bank])
      (filtered_df (Samples.wide_open by_Upside_Potential)
         [Samples.miner; Samples.bank]).
Proof.
  assert (∀ s, s ∈ ["Financial Services"] →
               s ∈ selected_sectors (Samples.wide_open by_Upside_Potential))
    as Hsec.
  { intros s ->%list_elem_of_singleton. simpl.
    apply list_elem_of_further, list_elem_of_here. }
  split_and!; [exact Hsec|vm_compute; reflexivity|].
  by apply (selections_monotonic (Samples.wide_open by_Upside_Potential)
              {| selected_sectors := ["Financial Services"];
                 min_analysts := 0; min_upside := 0; min_div := 0;
                 rating_filter := [Some "buy"];
                 sort_col := by_Upside_Potential |}
              [Samples.miner; Samples.bank]).
Defined.

End AppMore.
